(** * memory-mcp: the memory store and its tool dispatcher

    A shallow embedding of [src/memory_mcp/server.py]: the class
    [DatabaseManager] over its SQLite table [memories], the five tool
    functions built on the module-level manager [db], and the dispatcher
    [handle_call_tool].

    Conventions of the embedding.
    - Python [int] and SQLite [INTEGER] are [Z]; texts are [string]s.
    - The clock is an input: every operation that reads
      [datetime.datetime.now().isoformat()] takes that text as [now].
    - The manager is passed explicitly: an operation takes the manager and
      returns its result together with the manager it leaves behind.
    - The table is the list of its rows in the order of a table scan, which
      for a rowid table is the order of the row ids. *)

From Stdlib Require Import ZArith String Ascii List Bool Lia DecimalString Sorted.
From stdpp Require Import gmap strings list fin_maps.

Local Open Scope Z_scope.
Local Open Scope string_scope.

(** ** Texts *)

(** [str(n)] and [f"{n}"] of a Python integer: decimal digits, with a
    leading minus sign for a negative number. *)
Definition str_int (n : Z) : string := NilZero.string_of_int (Z.to_int n).

(** The line feed of the literals ["\n"]. *)
Definition nl : string := String (ascii_of_nat 10) EmptyString.

(** ** The store *)

(** The methods of the manager, on the integers that SQLite holds: a
    [memory_id] is taken within the signed 64 bits of an INTEGER column.
    What the methods do with any other Python integer is in [Checked],
    further down. *)
Module DatabaseManager.

(** A row of the table [memories], and the mapping that
    [get_memory_by_id] and [get_memory_by_title] build from it. *)
Record Memory : Type := mkMemory {
  id : Z;
  title : string;
  content : string;
  created_at : string;
  updated_at : string
}.

(** The manager: [conn] tells whether [self.conn] holds a connection, and
    [memories] is the table in the database file, which outlives the
    connection. *)
Record t : Type := mk {
  conn : bool;
  memories : list Memory
}.

(** [CREATE TABLE IF NOT EXISTS] keeps the rows of an existing table. *)
Definition initialize_db (self : t) : t :=
  {| conn := true; memories := memories self |}.

Definition close (self : t) : t :=
  if conn self then {| conn := false; memories := memories self |} else self.

(** The opening lines of every method:
    [if not self.conn: self.initialize_db()]. *)
Definition connect (self : t) : t :=
  if conn self then self else initialize_db self.

(** The largest row id in use, if the table has a row. *)
Fixpoint largest_rowid (rows : list Memory) : option Z :=
  match rows with
  | [] => None
  | r :: rows' =>
      match largest_rowid rows' with
      | None => Some (id r)
      | Some m => Some (Z.max (id r) m)
      end
  end.

(** The row id SQLite gives to a row inserted without one into a table
    whose key is [INTEGER PRIMARY KEY] (declared without AUTOINCREMENT):
    one more than the largest row id in use, and 1 in an empty table.
    (Only at the largest 64-bit row id does the engine leave this rule
    and probe for a free id; the embedding covers the sequential rule.) *)
Definition new_rowid (rows : list Memory) : Z :=
  match largest_rowid rows with
  | None => 1
  | Some m => m + 1
  end.

(** [x or 0] on an integer. *)
Definition or_0 (x : Z) : Z := if Z.eqb x 0 then 0 else x.

Definition add_memory (title content : string) (now : string) (self : t)
  : Z * t :=
  let self := connect self in
  let current_time := now in
  let lastrowid := new_rowid (memories self) in
  let row := mkMemory lastrowid title content current_time current_time in
  (or_0 lastrowid,
   {| conn := conn self; memories := (memories self ++ [row])%list |}).

(** [fetchone] of [SELECT ... WHERE id = ?]: the first matching row. *)
Definition get_memory_by_id (memory_id : Z) (self : t) : option Memory * t :=
  let self := connect self in
  (List.find (fun r => Z.eqb (id r) memory_id) (memories self), self).

(** [fetchone] of [SELECT ... WHERE title = ?]: the first row, in scan
    order, whose title is the given text. *)
Definition get_memory_by_title (title_ : string) (self : t)
  : option Memory * t :=
  let self := connect self in
  (List.find (fun r => String.eqb (title r) title_) (memories self), self).

(** [SELECT id, title FROM memories], one [{"id", "title"}] mapping per
    row. *)
Definition list_memories (self : t) : list (Z * string) * t :=
  let self := connect self in
  (List.map (fun r => (id r, title r)) (memories self), self).

(** The columns that [update_memory] may assign. *)
Inductive column : Type := col_title | col_content | col_updated_at.

Definition set_column (a : column * string) (r : Memory) : Memory :=
  match fst a with
  | col_title =>
      mkMemory (id r) (snd a) (content r) (created_at r) (updated_at r)
  | col_content =>
      mkMemory (id r) (title r) (snd a) (created_at r) (updated_at r)
  | col_updated_at =>
      mkMemory (id r) (title r) (content r) (created_at r) (snd a)
  end.

(** [UPDATE memories SET <items> WHERE id = ?]. *)
Definition sql_update (items : list (column * string)) (memory_id : Z)
    (rows : list Memory) : list Memory :=
  List.map (fun r =>
    if Z.eqb (id r) memory_id
    then fold_left (fun r a => set_column a r) items r
    else r) rows.

(** [DELETE FROM memories WHERE id = ?]. *)
Definition sql_delete (memory_id : Z) (rows : list Memory) : list Memory :=
  List.filter (fun r => negb (Z.eqb (id r) memory_id)) rows.

Definition update_memory (memory_id : Z) (title content : option string)
    (now : string) (self : t) : bool * t :=
  let self := connect self in
  let (existing_memory, self) := get_memory_by_id memory_id self in
  match existing_memory with
  | None => (false, self)
  | Some _ =>
      let update_items :=
        (match title with Some v => [(col_title, v)] | None => [] end ++
         match content with Some v => [(col_content, v)] | None => [] end)%list
      in
      match update_items with
      | [] => (true, self)
      | _ =>
          let update_items :=
            (update_items ++ [(col_updated_at, now)])%list in
          (true,
           {| conn := conn self;
              memories := sql_update update_items memory_id (memories self) |})
      end
  end.

Definition delete_memory (memory_id : Z) (self : t) : bool * t :=
  let self := connect self in
  let (existing_memory, self) := get_memory_by_id memory_id self in
  match existing_memory with
  | None => (false, self)
  | Some _ =>
      (true,
       {| conn := conn self;
          memories := sql_delete memory_id (memories self) |})
  end.

End DatabaseManager.

(** ** Values, exceptions and results of the protocol layer *)

(** The values an argument mapping carries: JSON null (Python [None]) and
    the two kinds the tool schemas declare, integers and strings. *)
Inductive value : Type :=
  | VNone
  | VInt (n : Z)
  | VStr (s : string).

(** The exceptions the embedding raises, with their message. *)
Inductive exn : Type :=
  | ValueError (msg : string)
  | TypeError (msg : string)
  | IntegrityError (msg : string)
  | OverflowError (msg : string).

(** [str(e)]. *)
Definition str_exn (e : exn) : string :=
  match e with
  | ValueError msg => msg
  | TypeError msg => msg
  | IntegrityError msg => msg
  | OverflowError msg => msg
  end.

(** [types.TextContent(type="text", text=...)]. *)
Inductive content_block : Type :=
  | TextContent (text : string).

(** What a call of the dispatcher does: it returns a list of content blocks
    or raises; the server turns a raised exception into an error result. *)
Inductive outcome : Type :=
  | Return (blocks : list content_block)
  | Raise (e : exn).

Definition is_Raise (o : outcome) : bool :=
  match o with Raise _ => true | Return _ => false end.

(** [v is None]. *)
Definition is_None (v : value) : bool :=
  match v with VNone => true | _ => false end.

(** How sqlite3 binds a value to a parameter compared with or stored in a
    column declared TEXT: a string as it is, an integer within the signed
    64 bits as its decimal text (the column's affinity), [None] as NULL. *)
Definition sqlite_text (v : value) : option string :=
  match v with
  | VNone => None
  | VInt n => Some (str_int n)
  | VStr s => Some s
  end.

Section Tools.

(** Python's [int] applied to a string: the integer it denotes, or the
    [ValueError] it raises. *)
Variable int_of_str : string -> exn + Z.

(** [int(v)]; the message for [None] is that of CPython 3.11. *)
Definition py_int (v : value) : exn + Z :=
  match v with
  | VInt n => inr n
  | VStr s => int_of_str s
  | VNone =>
      inl (TypeError
        "int() argument must be a string, a bytes-like object or a real number, not 'NoneType'")
  end.

(** [db.add_memory(title, content)] on the values of the caller, each a
    string, an integer within the signed 64 bits or [None]. The columns
    title and content are declared NOT NULL in [initialize_db]: with NULL in
    one of them the INSERT of [add_memory] raises, the first such column
    named in the message, and the table is left as it was. *)
Definition db_add_memory (title content : value) (now : string)
    (db : DatabaseManager.t) : (exn + Z) * DatabaseManager.t :=
  match sqlite_text title, sqlite_text content with
  | Some t, Some c =>
      let (memory_id, db) := DatabaseManager.add_memory t c now db in
      (inr memory_id, db)
  | None, _ =>
      (inl (IntegrityError "NOT NULL constraint failed: memories.title"),
       DatabaseManager.connect db)
  | Some _, None =>
      (inl (IntegrityError "NOT NULL constraint failed: memories.content"),
       DatabaseManager.connect db)
  end.

Definition remember (title content : value) (now : string)
    (db : DatabaseManager.t) : string * DatabaseManager.t :=
  match db_add_memory title content now db with
  | (inr memory_id, db) =>
      ("Memory stored successfully with ID: " ++ str_int memory_id ++ ".", db)
  | (inl e, db) => ("Error storing memory: " ++ str_exn e, db)
  end.

(** The two [return]s after the lookup in [get_memory]. *)
Definition show_memory (memory : option DatabaseManager.Memory) : string :=
  match memory with
  | Some m =>
      "Title: " ++ DatabaseManager.title m ++ nl ++ nl ++
      "Content: " ++ DatabaseManager.content m
  | None => "Memory not found."
  end.

Definition get_memory (memory_id title : value) (db : DatabaseManager.t)
    : string * DatabaseManager.t :=
  if negb (is_None memory_id) then
    match py_int memory_id with
    | inr n =>
        let (memory, db) := DatabaseManager.get_memory_by_id n db in
        (show_memory memory, db)
    | inl e => ("Error retrieving memory: " ++ str_exn e, db)
    end
  else
    match sqlite_text title with
    | Some t =>
        let (memory, db) := DatabaseManager.get_memory_by_title t db in
        (show_memory memory, db)
    | None => ("Error: Please provide either a memory_id or title.", db)
    end.

Definition list_memories (db : DatabaseManager.t)
    : string * DatabaseManager.t :=
  let (memories, db) := DatabaseManager.list_memories db in
  match memories with
  | [] => ("No memories stored yet.", db)
  | _ =>
      (fold_left
         (fun result memory =>
            result ++ "ID: " ++ str_int (fst memory) ++ " - " ++
            snd memory ++ nl)
         memories ("Stored Memories:" ++ nl ++ nl),
       db)
  end.

Definition update_memory (memory_id : Z) (title content : value)
    (now : string) (db : DatabaseManager.t) : string * DatabaseManager.t :=
  if is_None title && is_None content then
    ("Error: Please provide at least one field to update (title or content).",
     db)
  else
    let (success, db) :=
      DatabaseManager.update_memory memory_id
        (sqlite_text title) (sqlite_text content) now db in
    if success
    then ("Memory " ++ str_int memory_id ++ " updated successfully.", db)
    else ("Memory with ID " ++ str_int memory_id ++ " not found.", db).

Definition delete_memory (memory_id : Z) (db : DatabaseManager.t)
    : string * DatabaseManager.t :=
  let (success, db) := DatabaseManager.delete_memory memory_id db in
  if success
  then ("Memory " ++ str_int memory_id ++ " deleted successfully.", db)
  else ("Memory with ID " ++ str_int memory_id ++ " not found.", db).

(** ** The dispatcher *)

(** The mapping of an invocation; [None] when the caller sent none. *)
Definition items (arguments : option (gmap string value))
    : gmap string value :=
  default ∅ arguments.

(** [not arguments]: no mapping, or one without keys. *)
Definition not_ (arguments : option (gmap string value)) : bool :=
  Nat.eqb (size (items arguments)) 0.

(** [arguments.get(key)]. *)
Definition get (arguments : option (gmap string value)) (key : string)
    : value :=
  default VNone (items arguments !! key).

(** [[types.TextContent(type="text", text=result)]]. *)
Definition text_result (r : string * DatabaseManager.t)
    : outcome * DatabaseManager.t :=
  (Return [TextContent (fst r)], snd r).

Definition handle_call_tool (name : string)
    (arguments : option (gmap string value)) (now : string)
    (db : DatabaseManager.t) : outcome * DatabaseManager.t :=
  if String.eqb name "remember" then
    if not_ arguments then
      (Raise (ValueError "Missing title or content arguments"), db)
    else
      match items arguments !! "title", items arguments !! "content" with
      | Some title, Some content =>
          text_result (remember title content now db)
      | _, _ =>
          (Raise (ValueError "Missing title or content arguments"), db)
      end
  else if String.eqb name "get_memory" then
    if not_ arguments then (Raise (ValueError "Missing arguments"), db)
    else
      let memory_id := get arguments "memory_id" in
      let title := get arguments "title" in
      text_result (get_memory memory_id title db)
  else if String.eqb name "list_memories" then
    text_result (list_memories db)
  else if String.eqb name "update_memory" then
    if not_ arguments then
      (Raise (ValueError "Missing memory_id argument"), db)
    else
      match items arguments !! "memory_id" with
      | None => (Raise (ValueError "Missing memory_id argument"), db)
      | Some v =>
          match py_int v with
          | inl e => (Raise e, db)
          | inr memory_id =>
              let title := get arguments "title" in
              let content := get arguments "content" in
              text_result (update_memory memory_id title content now db)
          end
      end
  else if String.eqb name "delete_memory" then
    if not_ arguments then
      (Raise (ValueError "Missing memory_id argument"), db)
    else
      match items arguments !! "memory_id" with
      | None => (Raise (ValueError "Missing memory_id argument"), db)
      | Some v =>
          match py_int v with
          | inl e => (Raise e, db)
          | inr memory_id => text_result (delete_memory memory_id db)
          end
      end
  else (Raise (ValueError ("Unknown tool: " ++ name)), db).

End Tools.

(** ** Malformed invocations *)

(** The names the dispatcher knows. *)
Definition tools : list string :=
  ["remember"; "get_memory"; "list_memories"; "update_memory";
   "delete_memory"].

(** [key not in arguments], for a mapping that may be absent. *)
Definition missing (arguments : option (gmap string value)) (key : string)
    : bool :=
  match items arguments !! key with
  | None => true
  | Some _ => false
  end.

(** The malformed invocations in the words of the specification:
    [remember] missing title or content, [update_memory] or [delete_memory]
    missing memory_id, or a name outside the five. *)
Definition spec_malformed (name : string)
    (arguments : option (gmap string value)) : bool :=
  (String.eqb name "remember" &&
   (missing arguments "title" || missing arguments "content"))
  || ((String.eqb name "update_memory" || String.eqb name "delete_memory") &&
      missing arguments "memory_id")
  || negb (existsb (String.eqb name) tools).

(** [int(arguments["memory_id"])] raises. *)
Definition bad_memory_id (int_of_str : string -> exn + Z)
    (arguments : option (gmap string value)) : bool :=
  match items arguments !! "memory_id" with
  | Some v =>
      match py_int int_of_str v with
      | inl _ => true
      | inr _ => false
      end
  | None => false
  end.

(** The invocations on which [handle_call_tool] raises: those above,
    [get_memory] without a mapping or with an empty one, and
    [update_memory] or [delete_memory] with a memory_id that [int]
    refuses. *)
Definition malformed (int_of_str : string -> exn + Z) (name : string)
    (arguments : option (gmap string value)) : bool :=
  spec_malformed name arguments
  || (String.eqb name "get_memory" && not_ arguments)
  || ((String.eqb name "update_memory" || String.eqb name "delete_memory") &&
      bad_memory_id int_of_str arguments).

(** An [int_of_str] for the examples: it reads the plain decimal numerals,
    with an optional minus sign, and refuses every other string. *)
Definition decimal_int_of_str (s : string) : exn + Z :=
  match NilZero.int_of_string s with
  | Some d => inr (Z.of_int d)
  | None =>
      inl (ValueError ("invalid literal for int() with base 10: '" ++ s ++ "'"))
  end.

(** [isinstance(v, int)]. *)
Definition is_int (v : value) : bool :=
  match v with VInt _ => true | _ => false end.

(** ** Integers that SQLite does not hold *)

(** sqlite3 binds a Python [int] to a statement as a signed 64-bit
    integer. *)
Definition fits_int64 (n : Z) : bool :=
  Z.leb (- 2 ^ 63) n && Z.ltb n (2 ^ 63).

(** What [execute] raises when it is given any other integer. *)
Definition too_large : exn :=
  OverflowError "Python int too large to convert to SQLite INTEGER".

(** The largest row id; below it, SQLite gives a new row the next id. *)
Definition rowid_max : Z := 2 ^ 63 - 1.

(** The functions that bind a [memory_id], for every Python integer. With
    an integer that fits they are the functions above; with any other the
    first [execute] raises, after the opening lines of the method and before
    a row is read or written. *)
Module Checked.

Definition get_memory_by_id (memory_id : Z) (self : DatabaseManager.t)
    : (exn + option DatabaseManager.Memory) * DatabaseManager.t :=
  if fits_int64 memory_id then
    let (row, self) := DatabaseManager.get_memory_by_id memory_id self in
    (inr row, self)
  else (inl too_large, DatabaseManager.connect self).

(** The exception comes from the call of [get_memory_by_id] that
    [update_memory] and [delete_memory] start with. *)
Definition update_memory (memory_id : Z) (title content : option string)
    (now : string) (self : DatabaseManager.t)
    : (exn + bool) * DatabaseManager.t :=
  if fits_int64 memory_id then
    let (updated, self) :=
      DatabaseManager.update_memory memory_id title content now self in
    (inr updated, self)
  else (inl too_large, DatabaseManager.connect self).

Definition delete_memory (memory_id : Z) (self : DatabaseManager.t)
    : (exn + bool) * DatabaseManager.t :=
  if fits_int64 memory_id then
    let (deleted, self) := DatabaseManager.delete_memory memory_id self in
    (inr deleted, self)
  else (inl too_large, DatabaseManager.connect self).

(** [n] calls of [delete_memory] on the same id, one after the other. *)
Definition delete_times (n : nat) (memory_id : Z) (db : DatabaseManager.t)
    : DatabaseManager.t :=
  Nat.iter n (fun db => snd (delete_memory memory_id db)) db.

(** The binding of a title, for every Python integer. *)
Definition bind_text (v : value) : exn + option string :=
  match v with
  | VNone => inr None
  | VInt n => if fits_int64 n then inr (Some (str_int n)) else inl too_large
  | VStr s => inr (Some s)
  end.

(** The tool [get_memory], with the exceptions of the store caught by its
    [except] clause. *)
Definition get_memory (int_of_str : string -> exn + Z)
    (memory_id title : value) (db : DatabaseManager.t)
    : string * DatabaseManager.t :=
  if negb (is_None memory_id) then
    match py_int int_of_str memory_id with
    | inr n =>
        match get_memory_by_id n db with
        | (inr memory, db) => (show_memory memory, db)
        | (inl e, db) => ("Error retrieving memory: " ++ str_exn e, db)
        end
    | inl e => ("Error retrieving memory: " ++ str_exn e, db)
    end
  else
    match bind_text title with
    | inr (Some t) =>
        let (memory, db) := DatabaseManager.get_memory_by_title t db in
        (show_memory memory, db)
    | inr None => ("Error: Please provide either a memory_id or title.", db)
    | inl e =>
        ("Error retrieving memory: " ++ str_exn e,
         DatabaseManager.connect db)
    end.

End Checked.

(** ** Sequences of store operations *)

(** A mutation of the store by its caller. *)
Inductive op : Type :=
  | op_add (title content now : string)
  | op_delete (memory_id : Z).

(** Run the operations in order; the ids that the [add_memory] calls
    returned, in the order of the calls, and the manager left behind. *)
Fixpoint run (ops : list op) (db : DatabaseManager.t)
    : list Z * DatabaseManager.t :=
  match ops with
  | [] => ([], db)
  | op_add title content now :: ops' =>
      let (memory_id, db) := DatabaseManager.add_memory title content now db in
      let (ids, db) := run ops' db in
      (memory_id :: ids, db)
  | op_delete memory_id :: ops' =>
      run ops' (snd (DatabaseManager.delete_memory memory_id db))
  end.

Definition add_of (a : string * string * string) : op :=
  op_add (fst (fst a)) (snd (fst a)) (snd a).

(** [n] calls of [delete_memory] on the same id, one after the other. *)
Definition delete_times (n : nat) (memory_id : Z) (db : DatabaseManager.t)
    : DatabaseManager.t :=
  Nat.iter n (fun db => snd (DatabaseManager.delete_memory memory_id db)) db.

(** ** The table invariant *)

(** The rows of a rowid table lie in ascending order of their ids, so that
    no two rows share an id. *)
Definition ascending (rows : list DatabaseManager.Memory) : Prop :=
  StronglySorted
    (fun a b => DatabaseManager.id a < DatabaseManager.id b) rows.

(** ** Sample states *)

Definition row_1 : DatabaseManager.Memory :=
  DatabaseManager.mkMemory 1 "groceries" "milk, eggs" "2024-01-01T09:00:00"
    "2024-01-01T09:00:00".

Definition row_2 : DatabaseManager.Memory :=
  DatabaseManager.mkMemory 2 "ideas" "a memory server" "2024-01-02T10:30:00"
    "2024-01-03T08:15:00".

(** A manager on a new database file, and one holding two rows. *)
Definition db_new : DatabaseManager.t := DatabaseManager.mk true [].
Definition db_two : DatabaseManager.t := DatabaseManager.mk true [row_1; row_2].

(** ** Sequences of calls of the store *)

(** A call of a method of the manager, with its arguments. *)
Inductive call : Type :=
  | call_add_memory (title content now : string)
  | call_get_memory_by_id (memory_id : Z)
  | call_get_memory_by_title (title : string)
  | call_list_memories
  | call_update_memory (memory_id : Z) (title content : option string)
      (now : string)
  | call_delete_memory (memory_id : Z)
  | call_close.

(** The manager after a call. *)
Definition after (c : call) (db : DatabaseManager.t) : DatabaseManager.t :=
  match c with
  | call_add_memory title content now =>
      snd (DatabaseManager.add_memory title content now db)
  | call_get_memory_by_id memory_id =>
      snd (DatabaseManager.get_memory_by_id memory_id db)
  | call_get_memory_by_title title =>
      snd (DatabaseManager.get_memory_by_title title db)
  | call_list_memories => snd (DatabaseManager.list_memories db)
  | call_update_memory memory_id title content now =>
      snd (DatabaseManager.update_memory memory_id title content now db)
  | call_delete_memory memory_id =>
      snd (DatabaseManager.delete_memory memory_id db)
  | call_close => DatabaseManager.close db
  end.

(** The manager after the calls, made in order. *)
Definition after_all (cs : list call) (db : DatabaseManager.t)
    : DatabaseManager.t :=
  fold_left (fun db c => after c db) cs db.

(** How many of the calls are insertions. *)
Definition count_add_memory (cs : list call) : nat :=
  length (List.filter
            (fun c => match c with call_add_memory _ _ _ => true | _ => false end)
            cs).

(** Every id of the table lies between [lo] and [hi]. *)
Definition ids_within (lo hi : Z) (rows : list DatabaseManager.Memory) : Prop :=
  Forall (fun r => lo <= DatabaseManager.id r <= hi) rows.

(** ** The advertised tools *)

Module types.

(** An entry of ["properties"] in an input schema. *)
Record Property : Type := mkProperty {
  type_ : string;
  description_ : string
}.

(** The [inputSchema] mapping; [required] is [None] where the mapping has
    no such key. *)
Record Schema : Type := mkSchema {
  schema_type : string;
  properties : list (string * Property);
  required : option (list string);
  schema_title : string
}.

(** [types.Tool]. *)
Record Tool : Type := mkTool {
  name : string;
  description : string;
  inputSchema : Schema
}.

End types.

Definition handle_list_tools : list types.Tool :=
  [ types.mkTool "remember" "Store a new memory."
      (types.mkSchema "object"
         [("title", types.mkProperty "string" "A concise title for the memory");
          ("content",
           types.mkProperty "string" "The full content of the memory to store")]
         (Some ["title"; "content"])
         "rememberArguments");
    types.mkTool "get_memory" "Retrieve a specific memory by ID or title."
      (types.mkSchema "object"
         [("memory_id",
           types.mkProperty "integer" "The ID of the memory to retrieve");
          ("title",
           types.mkProperty "string" "The title of the memory to retrieve")]
         None
         "getMemoryArguments");
    types.mkTool "list_memories" "List all stored memories."
      (types.mkSchema "object" [] None "listMemoriesArguments");
    types.mkTool "update_memory" "Update an existing memory."
      (types.mkSchema "object"
         [("memory_id",
           types.mkProperty "integer" "The ID of the memory to update");
          ("title",
           types.mkProperty "string" "Optional new title for the memory");
          ("content",
           types.mkProperty "string" "Optional new content for the memory")]
         (Some ["memory_id"])
         "updateMemoryArguments");
    types.mkTool "delete_memory" "Delete a memory."
      (types.mkSchema "object"
         [("memory_id",
           types.mkProperty "integer" "The ID of the memory to delete")]
         (Some ["memory_id"])
         "deleteMemoryArguments") ].

(** The keys a schema requires: those of its ["required"] list, none when
    the schema has no such list. *)
Definition required_keys (tool : types.Tool) : list string :=
  match types.required (types.inputSchema tool) with
  | Some keys => keys
  | None => []
  end.

Example str_int_examples :
  str_int 0 = "0" /\ str_int 42 = "42" /\ str_int (-7) = "-7".
Proof. repeat split; reflexivity. Qed.

(** * Properties of the store *)

Module StoreFacts.
Import DatabaseManager.

Lemma or_0_same x : or_0 x = x.
Proof. unfold or_0. destruct (Z.eqb_spec x 0); congruence. Qed.

Lemma memories_connect db : memories (connect db) = memories db.
Proof. unfold connect. destruct (conn db); reflexivity. Qed.

Lemma conn_connect db : conn (connect db) = true.
Proof. unfold connect. destruct (conn db) eqn:E; [exact E | reflexivity]. Qed.

Lemma connect_connect db : connect (connect db) = connect db.
Proof. unfold connect at 1. rewrite conn_connect. reflexivity. Qed.

(** Every row id in use is at most the largest one. *)
Lemma largest_rowid_ge rows r :
  In r rows -> exists m, largest_rowid rows = Some m /\ id r <= m.
Proof.
  induction rows as [|x rows IH]; simpl; [tauto|].
  intros [->|Hin].
  - destruct (largest_rowid rows); eexists; split; eauto; lia.
  - destruct (IH Hin) as (m & -> & Hm). eexists; split; eauto. lia.
Qed.

(** A new row id is above every row id in use. *)
Lemma new_rowid_above rows r : In r rows -> id r < new_rowid rows.
Proof.
  intros Hin. unfold new_rowid.
  destruct (largest_rowid_ge rows r Hin) as (m & -> & Hm). lia.
Qed.

Lemma new_rowid_snoc rows r :
  (forall x, In x rows -> id x < id r) ->
  new_rowid (rows ++ [r]) = id r + 1.
Proof.
  unfold new_rowid. induction rows as [|x rows IH]; simpl; intros H.
  - reflexivity.
  - assert (Hr : forall y, In y rows -> id y < id r) by auto.
    specialize (IH Hr). specialize (H x (or_introl eq_refl)).
    destruct (largest_rowid (rows ++ [r])) as [m|] eqn:E.
    + f_equal. assert (m = id r) by lia. lia.
    + destruct rows; simpl in E; [discriminate|].
      destruct (largest_rowid (rows ++ [r])); discriminate.
Qed.

Lemma find_snoc {A} (f : A -> bool) l y :
  (forall x, In x l -> f x = false) ->
  List.find f (l ++ [y]) = if f y then Some y else None.
Proof.
  induction l as [|x l IH]; simpl; intros H; [reflexivity|].
  rewrite (H x (or_introl eq_refl)). apply IH. auto.
Qed.

Lemma find_id_filter memory_id rows :
  List.find (fun r => Z.eqb (id r) memory_id) (sql_delete memory_id rows)
  = None.
Proof.
  induction rows as [|x rows IH]; simpl; [reflexivity|].
  destruct (Z.eqb (id x) memory_id) eqn:E; simpl; [exact IH|].
  rewrite E. exact IH.
Qed.

Lemma sql_delete_absent memory_id rows :
  List.find (fun r => Z.eqb (id r) memory_id) rows = None ->
  sql_delete memory_id rows = rows.
Proof.
  induction rows as [|x rows IH]; simpl; [reflexivity|].
  destruct (Z.eqb (id x) memory_id) eqn:E; [discriminate|].
  simpl. intros H. f_equal. exact (IH H).
Qed.

(** The methods, as functions of the table alone. *)
Lemma get_memory_by_id_eq memory_id db :
  get_memory_by_id memory_id db =
  (List.find (fun r => Z.eqb (id r) memory_id) (memories db), connect db).
Proof. unfold get_memory_by_id. rewrite memories_connect. reflexivity. Qed.

Lemma delete_memory_eq memory_id db :
  delete_memory memory_id db =
  match List.find (fun r => Z.eqb (id r) memory_id) (memories db) with
  | None => (false, connect db)
  | Some _ => (true, mk true (sql_delete memory_id (memories db)))
  end.
Proof.
  unfold delete_memory. rewrite get_memory_by_id_eq, connect_connect.
  rewrite (memories_connect db), (conn_connect db).
  destruct (List.find _ _); reflexivity.
Qed.

Lemma update_memory_eq memory_id title content now db :
  update_memory memory_id title content now db =
  match List.find (fun r => Z.eqb (id r) memory_id) (memories db) with
  | None => (false, connect db)
  | Some _ =>
      match title, content with
      | None, None => (true, connect db)
      | Some t, None =>
          (true, mk true (sql_update [(col_title, t); (col_updated_at, now)]
                            memory_id (memories db)))
      | None, Some c =>
          (true, mk true (sql_update [(col_content, c); (col_updated_at, now)]
                            memory_id (memories db)))
      | Some t, Some c =>
          (true, mk true (sql_update
                            [(col_title, t); (col_content, c);
                             (col_updated_at, now)]
                            memory_id (memories db)))
      end
  end.
Proof.
  unfold update_memory. rewrite get_memory_by_id_eq, connect_connect.
  rewrite (memories_connect db).
  destruct (List.find _ _); [|reflexivity].
  destruct title, content; simpl; rewrite ?(memories_connect db),
    ?(conn_connect db); reflexivity.
Qed.

Lemma delete_memory_absent memory_id db :
  fst (get_memory_by_id memory_id db) = None ->
  delete_memory memory_id db = (false, connect db).
Proof.
  rewrite get_memory_by_id_eq, delete_memory_eq. simpl.
  intros ->. reflexivity.
Qed.

Lemma get_after_delete memory_id db :
  fst (get_memory_by_id memory_id (snd (delete_memory memory_id db))) = None.
Proof.
  rewrite get_memory_by_id_eq, delete_memory_eq. simpl.
  destruct (List.find (fun r => Z.eqb (id r) memory_id) (memories db))
    eqn:E; simpl.
  - apply find_id_filter.
  - rewrite memories_connect. exact E.
Qed.

(** Looking a row up by id in a table rewritten row by row, when the
    rewriting keeps the ids. *)
Lemma find_id_map (g : Memory -> Memory) memory_id rows :
  (forall r, id (g r) = id r) ->
  List.find (fun r => Z.eqb (id r) memory_id) (List.map g rows) =
  option_map g (List.find (fun r => Z.eqb (id r) memory_id) rows).
Proof.
  intros Hg. induction rows as [|x rows IH]; simpl; [reflexivity|].
  rewrite Hg. destruct (Z.eqb (id x) memory_id); [reflexivity|exact IH].
Qed.

Lemma find_id_sql_update_other items memory_id other rows :
  other <> memory_id ->
  List.find (fun r => Z.eqb (id r) other) (sql_update items memory_id rows) =
  List.find (fun r => Z.eqb (id r) other) rows.
Proof.
  intros Hne. induction rows as [|x rows IH]; simpl; [reflexivity|].
  destruct (Z.eqb_spec (id x) memory_id) as [E|E].
  - assert (Hid : id (fold_left (fun r a => set_column a r) items x) = id x).
    { clear. revert x. induction items as [|a items IH]; intros x;
        cbn [fold_left]; [reflexivity|].
      rewrite IH. destruct a as [[] v]; reflexivity. }
    rewrite Hid.
    destruct (Z.eqb_spec (id x) other); [congruence|exact IH].
  - destruct (Z.eqb (id x) other); [reflexivity|exact IH].
Qed.

Lemma find_id_spec memory_id rows m :
  List.find (fun r => Z.eqb (id r) memory_id) rows = Some m ->
  id m = memory_id.
Proof.
  intros H. apply find_some in H as [_ H]. apply Z.eqb_eq in H. exact H.
Qed.

(** After an insertion the next row id is one further. *)
Lemma new_rowid_add T C now db :
  new_rowid (memories (snd (add_memory T C now db))) =
  fst (add_memory T C now db) + 1.
Proof.
  unfold add_memory. simpl. rewrite or_0_same, (memories_connect db).
  rewrite new_rowid_snoc; [reflexivity|].
  intros x Hx. simpl. apply new_rowid_above. exact Hx.
Qed.

Lemma add_memory_id T C now db :
  fst (add_memory T C now db) = new_rowid (memories db).
Proof.
  unfold add_memory. simpl. rewrite or_0_same, memories_connect. reflexivity.
Qed.

(** Every method of the store leaves the connection open: a manager that
    comes back closed has not been used. *)
Lemma store_call_connects T C (o1 o2 : option string) now memory_id db :
  conn (snd (add_memory T C now db)) = true /\
  conn (snd (get_memory_by_id memory_id db)) = true /\
  conn (snd (get_memory_by_title T db)) = true /\
  conn (snd (list_memories db)) = true /\
  conn (snd (update_memory memory_id o1 o2 now db)) = true /\
  conn (snd (delete_memory memory_id db)) = true.
Proof.
  rewrite update_memory_eq, delete_memory_eq.
  unfold add_memory, get_memory_by_id, get_memory_by_title, list_memories.
  cbn [snd conn]. rewrite conn_connect.
  destruct (List.find _ _); [destruct o1, o2|]; cbn [snd conn];
    rewrite ?conn_connect; repeat split.
Qed.

(** The invariant of the table is kept by every mutation. *)
Lemma ascending_map (g : Memory -> Memory) rows :
  (forall r, id (g r) = id r) ->
  ascending rows -> ascending (List.map g rows).
Proof.
  intros Hg. unfold ascending.
  induction 1 as [|a l Hs IH Ha]; cbn [List.map]; constructor; [exact IH|].
  clear Hs IH. induction Ha as [|b l Hb _ IHl]; cbn [List.map];
    constructor; [|exact IHl].
  rewrite !Hg. exact Hb.
Qed.

Lemma ascending_filter (f : Memory -> bool) rows :
  ascending rows -> ascending (List.filter f rows).
Proof.
  unfold ascending.
  induction 1 as [|a l Hs IH Ha]; cbn [List.filter]; [constructor|].
  destruct (f a); [|exact IH]. constructor; [exact IH|].
  clear Hs IH. induction Ha as [|b l Hb _ IHl]; cbn [List.filter];
    [constructor|].
  destruct (f b); [constructor; assumption | exact IHl].
Qed.

Lemma ascending_snoc rows r :
  (forall x, In x rows -> id x < id r) ->
  ascending rows -> ascending (rows ++ [r]).
Proof.
  intros Hr. unfold ascending.
  induction 1 as [|a l Hs IH Ha]; cbn [app].
  - repeat constructor.
  - constructor.
    + apply IH. intros x Hx. apply Hr. right. exact Hx.
    + apply Forall_app. split; [exact Ha|].
      constructor; [|constructor]. apply Hr. left. reflexivity.
Qed.

Lemma set_columns_id items r :
  id (fold_left (fun r a => set_column a r) items r) = id r.
Proof.
  revert r. induction items as [|a items IH]; intros r; cbn [fold_left];
    [reflexivity|].
  rewrite IH. destruct a as [[] v]; reflexivity.
Qed.

Lemma ascending_kept T C (o1 o2 : option string) now memory_id db :
  ascending (memories db) ->
  ascending (memories (snd (add_memory T C now db))) /\
  ascending (memories (snd (update_memory memory_id o1 o2 now db))) /\
  ascending (memories (snd (delete_memory memory_id db))).
Proof.
  intros H. rewrite update_memory_eq, delete_memory_eq.
  unfold add_memory. cbn [snd memories]. rewrite (memories_connect db).
  split; [|split].
  - apply ascending_snoc; [|exact H].
    intros x Hx. apply new_rowid_above. exact Hx.
  - assert (Hu : forall items,
              ascending (sql_update items memory_id (memories db))).
    { intros items. apply ascending_map; [|exact H].
      intros r. destruct (Z.eqb (id r) memory_id); [|reflexivity].
      apply set_columns_id. }
    destruct (List.find _ _); [destruct o1, o2|]; cbn [snd memories];
      rewrite ?(memories_connect db); auto.
  - destruct (List.find _ _); cbn [snd memories];
      rewrite ?(memories_connect db); [|exact H].
    apply ascending_filter. exact H.
Qed.

End StoreFacts.

Section StoreClaims.
Import DatabaseManager StoreFacts.

(** C5. After [add_memory] of any title and content, [get_memory_by_id]
    on the returned id yields a record with that id, that title and that
    content, and whose [created_at] equals its [updated_at]. *)
Theorem C5_add_then_get_by_id (T C now : string) (db : t) :
  exists m,
    fst (get_memory_by_id (fst (add_memory T C now db))
           (snd (add_memory T C now db))) = Some m /\
    id m = fst (add_memory T C now db) /\
    title m = T /\ content m = C /\ created_at m = updated_at m.
Proof.
  rewrite get_memory_by_id_eq. unfold add_memory. simpl.
  rewrite or_0_same, (memories_connect db). simpl.
  rewrite find_snoc.
  - simpl. rewrite Z.eqb_refl. eexists. split; [reflexivity|].
    simpl. repeat split.
  - intros x Hx. apply Z.eqb_neq.
    pose proof (new_rowid_above _ _ Hx). lia.
Qed.

(** C3. On an existing record, [update_memory] with a title only sets
    that record's title and sets its [updated_at] to the current time; its
    id, content and [created_at], and every other row of the table, stay as
    they were. With a content only, the same holds with content in the
    place of title. *)
Theorem C3_update_one_field (memory_id : Z) (T now : string) (db : t)
    (m : Memory) :
  fst (get_memory_by_id memory_id db) = Some m ->
  (fst (update_memory memory_id (Some T) None now db) = true /\
   memories (snd (update_memory memory_id (Some T) None now db)) =
     List.map (fun r =>
       if Z.eqb (id r) memory_id
       then mkMemory (id r) T (content r) (created_at r) now
       else r) (memories db) /\
   fst (get_memory_by_id memory_id
          (snd (update_memory memory_id (Some T) None now db))) =
     Some (mkMemory memory_id T (content m) (created_at m) now) /\
   forall other, other <> memory_id ->
     fst (get_memory_by_id other
            (snd (update_memory memory_id (Some T) None now db))) =
     fst (get_memory_by_id other db))
  /\
  (fst (update_memory memory_id None (Some T) now db) = true /\
   memories (snd (update_memory memory_id None (Some T) now db)) =
     List.map (fun r =>
       if Z.eqb (id r) memory_id
       then mkMemory (id r) (title r) T (created_at r) now
       else r) (memories db) /\
   fst (get_memory_by_id memory_id
          (snd (update_memory memory_id None (Some T) now db))) =
     Some (mkMemory memory_id (title m) T (created_at m) now) /\
   forall other, other <> memory_id ->
     fst (get_memory_by_id other
            (snd (update_memory memory_id None (Some T) now db))) =
     fst (get_memory_by_id other db)).
Proof.
  rewrite get_memory_by_id_eq. simpl. intros E.
  pose proof (find_id_spec _ _ _ E) as Hid.
  rewrite !update_memory_eq, E. simpl.
  split; (split; [reflexivity|]); (split; [reflexivity|]); split.
  - unfold sql_update. simpl.
    erewrite (find_id_map (fun r => if Z.eqb (id r) memory_id then _ else r)).
    + rewrite E. simpl. rewrite Hid, Z.eqb_refl.
      unfold set_column. simpl. rewrite Hid. reflexivity.
    + intros r. destruct (Z.eqb (id r) memory_id); reflexivity.
  - intros other Hne. rewrite (memories_connect db).
    apply find_id_sql_update_other. exact Hne.
  - unfold sql_update. simpl.
    erewrite (find_id_map (fun r => if Z.eqb (id r) memory_id then _ else r)).
    + rewrite E. simpl. rewrite Hid, Z.eqb_refl.
      unfold set_column. simpl. rewrite Hid. reflexivity.
    + intros r. destruct (Z.eqb (id r) memory_id); reflexivity.
  - intros other Hne. rewrite (memories_connect db).
    apply find_id_sql_update_other. exact Hne.
Qed.

Lemma C3_update_one_field_witness :
  fst (get_memory_by_id 1 db_two) = Some row_1 /\
  memories (snd (update_memory 1 (Some "shopping") None
                   "2024-02-01T12:00:00" db_two)) =
    [mkMemory 1 "shopping" "milk, eggs" "2024-01-01T09:00:00"
       "2024-02-01T12:00:00"; row_2] /\
  memories (snd (update_memory 1 None (Some "bread")
                   "2024-02-01T12:00:00" db_two)) =
    [mkMemory 1 "groceries" "bread" "2024-01-01T09:00:00"
       "2024-02-01T12:00:00"; row_2].
Proof.
  split; [reflexivity|].
  destruct (C3_update_one_field 1 "shopping" "2024-02-01T12:00:00" db_two
              row_1 eq_refl) as [(_ & Ht & _) _].
  destruct (C3_update_one_field 1 "bread" "2024-02-01T12:00:00" db_two
              row_1 eq_refl) as [_ (_ & Hc & _)].
  split; [exact Ht | exact Hc].
Defined.

(** C10. [get_memory_by_id], [get_memory_by_title] and [list_memories]
    leave every row of the table as it was; all they may do to the manager
    is open its connection. *)
Theorem C10_reads_keep_table (memory_id : Z) (T : string) (db : t) :
  (memories (snd (get_memory_by_id memory_id db)) = memories db /\
   memories (snd (get_memory_by_title T db)) = memories db /\
   memories (snd (list_memories db)) = memories db) /\
  (snd (get_memory_by_id memory_id db) = connect db /\
   snd (get_memory_by_title T db) = connect db /\
   snd (list_memories db) = connect db).
Proof.
  unfold get_memory_by_id, get_memory_by_title, list_memories. simpl.
  rewrite memories_connect. repeat split.
Qed.

Lemma run_add_cons T C now ops db :
  run (op_add T C now :: ops) db =
  (fst (add_memory T C now db) :: fst (run ops (snd (add_memory T C now db))),
   snd (run ops (snd (add_memory T C now db)))).
Proof.
  cbn [run]. destruct (add_memory T C now db) as [i db1]. cbn [fst snd].
  destruct (run ops db1); reflexivity.
Qed.

(** C2 as stated fails: the record with the largest id is deleted, and
    the next insertion is given its id again. *)
Lemma C2_id_reused_counterexample :
  fst (run [op_add "a" "first" "2024-01-01T09:00:00";
            op_delete 1;
            op_add "b" "second" "2024-01-01T09:05:00"] db_new) = [1; 1] /\
  ~ StronglySorted Z.lt
      (fst (run [op_add "a" "first" "2024-01-01T09:00:00";
                 op_delete 1;
                 op_add "b" "second" "2024-01-01T09:05:00"] db_new)).
Proof.
  split; [reflexivity|].
  intros H. apply StronglySorted_inv in H as [_ H].
  apply Forall_inv in H. vm_compute in H. discriminate.
Qed.

End StoreClaims.

(** * Properties of the tools *)

Lemma append_assoc (a b c : string) : (a ++ b) ++ c = a ++ (b ++ c).
Proof.
  induction a as [|x a IH]; [reflexivity|].
  change (String x ((a ++ b) ++ c) = String x (a ++ (b ++ c))).
  rewrite IH. reflexivity.
Qed.

Lemma append_empty_r (a : string) : a ++ "" = a.
Proof.
  induction a as [|x a IH]; [reflexivity|].
  change (String x (a ++ "") = String x a). rewrite IH. reflexivity.
Qed.

(** The loop of [list_memories]: appending the lines one by one to what is
    already there. *)
Lemma fold_lines (line : Z * string -> string) (l : list (Z * string))
    (init : string) :
  fold_left (fun result memory => result ++ line memory) l init =
  init ++ fold_right (fun memory rest => line memory ++ rest) "" l.
Proof.
  revert init. induction l as [|x l IH]; intros init; cbn [fold_left fold_right].
  - symmetry. apply append_empty_r.
  - rewrite IH, append_assoc. reflexivity.
Qed.

(** C8. [DatabaseManager.list_memories] returns one [(id, title)]
    projection per row of the table, in the order of the rows, and so the
    empty list for the empty table; the tool [list_memories] renders the
    empty list as "No memories stored yet." and any other as
    "Stored Memories:", two line feeds, and one line "ID: <id> - <title>"
    per row. *)
Theorem C8_list_memories (db : DatabaseManager.t) :
  length (fst (DatabaseManager.list_memories db)) =
    length (DatabaseManager.memories db) /\
  (forall i : nat,
     fst (DatabaseManager.list_memories db) !! i =
     (fun r => (DatabaseManager.id r, DatabaseManager.title r)) <$>
       (DatabaseManager.memories db !! i)) /\
  fst (list_memories db) =
    match DatabaseManager.memories db with
    | [] => "No memories stored yet."
    | rows =>
        "Stored Memories:" ++ nl ++ nl ++
        fold_right
          (fun r rest =>
             ("ID: " ++ str_int (DatabaseManager.id r) ++ " - " ++
              DatabaseManager.title r ++ nl) ++ rest)
          "" rows
    end.
Proof.
  unfold list_memories, DatabaseManager.list_memories.
  rewrite StoreFacts.memories_connect. simpl.
  split; [apply length_map|].
  split; [intros i; apply list_lookup_fmap|].
  destruct (DatabaseManager.memories db) as [|r rows]; [reflexivity|].
  cbn [List.map fst snd].
  rewrite (fold_lines (fun memory =>
             "ID: " ++ str_int (fst memory) ++ " - " ++ snd memory ++ nl)).
  rewrite (append_assoc "Stored Memories:" (nl ++ nl)), (append_assoc nl nl).
  do 3 f_equal.
  cbn [fold_right fst snd]. f_equal.
  induction rows as [|x l IH]; cbn [List.map fold_right fst snd];
    [reflexivity|]. rewrite IH. reflexivity.
Qed.

Section DispatcherClaims.
Variable int_of_str : string -> exn + Z.

Lemma not_items (arguments : option (gmap string value)) (key : string) :
  not_ arguments = true -> items arguments !! key = None.
Proof.
  unfold not_. intros H. apply Nat.eqb_eq in H.
  apply map_size_empty_iff in H. rewrite H. apply lookup_empty.
Qed.

Lemma not_nonempty (arguments : gmap string value) :
  arguments <> ∅ -> not_ (Some arguments) = false.
Proof.
  intros H. unfold not_, items. simpl. apply Nat.eqb_neq.
  intros E. apply H. apply map_size_empty_iff. exact E.
Qed.

(** C1, as the dispatcher has it. For [get_memory] with a mapping that
    has some key but supplies neither memory_id nor title (each absent or
    null), the dispatcher returns the text "Error: Please provide either a
    memory_id or title." without raising, and hands the manager back as it
    was, a closed connection still closed: no method of the store ran.
    Without a mapping, or with the empty one, it raises
    [ValueError("Missing arguments")], again with the manager as it was. *)
Theorem C1_get_memory_neither (now : string) (db : DatabaseManager.t) :
  (forall arguments : gmap string value,
     arguments <> ∅ ->
     get (Some arguments) "memory_id" = VNone ->
     get (Some arguments) "title" = VNone ->
     handle_call_tool int_of_str "get_memory" (Some arguments) now db =
     (Return
        [TextContent "Error: Please provide either a memory_id or title."],
      db)) /\
  handle_call_tool int_of_str "get_memory" None now db =
    (Raise (ValueError "Missing arguments"), db) /\
  handle_call_tool int_of_str "get_memory" (Some ∅) now db =
    (Raise (ValueError "Missing arguments"), db).
Proof.
  split; [|split; reflexivity].
  intros arguments Hne Hid Htitle.
  unfold handle_call_tool. cbn [String.eqb Ascii.eqb Bool.eqb].
  rewrite (not_nonempty _ Hne). cbv zeta. rewrite Hid, Htitle.
  reflexivity.
Qed.

(** Decide the comparisons of a known tool name with the five literals. *)
Ltac known_tool := cbn [String.eqb Ascii.eqb Bool.eqb andb orb negb].

(** Close the three parts of a case once the outcome is a constructor. *)
Ltac settle := repeat split; discriminate.

(** C7, as the dispatcher has it. [handle_call_tool] raises exactly on
    the malformed invocations: [remember] missing title or content,
    [get_memory] without a mapping or with an empty one, [update_memory]
    or [delete_memory] missing memory_id or with a memory_id that [int]
    refuses, and a name outside the five, for which the exception is
    [ValueError("Unknown tool: <name>")]. In every other case it returns a
    text. When it raises, the manager is as it was. *)
Theorem C7_raises_iff_malformed (name : string)
    (arguments : option (gmap string value)) (now : string)
    (db : DatabaseManager.t) :
  is_Raise (fst (handle_call_tool int_of_str name arguments now db)) =
    malformed int_of_str name arguments /\
  (existsb (String.eqb name) tools = false ->
   handle_call_tool int_of_str name arguments now db =
     (Raise (ValueError ("Unknown tool: " ++ name)), db)) /\
  (is_Raise (fst (handle_call_tool int_of_str name arguments now db)) = true ->
   snd (handle_call_tool int_of_str name arguments now db) = db).
Proof.
  unfold handle_call_tool, malformed, spec_malformed, bad_memory_id, missing,
    tools.
  cbn [existsb].
  destruct (String.eqb_spec name "remember") as [->|H1].
  { known_tool. destruct (not_ arguments) eqn:En.
    - rewrite !(not_items _ _ En). settle.
    - destruct (items arguments !! "title"), (items arguments !! "content");
        settle. }
  destruct (String.eqb_spec name "get_memory") as [->|H2].
  { known_tool. destruct (not_ arguments) eqn:En; settle. }
  destruct (String.eqb_spec name "list_memories") as [->|H3].
  { known_tool. settle. }
  destruct (String.eqb_spec name "update_memory") as [->|H4].
  { known_tool. destruct (not_ arguments) eqn:En.
    - rewrite !(not_items _ _ En). settle.
    - destruct (items arguments !! "memory_id") as [v|]; [|settle].
      destruct (py_int int_of_str v); settle. }
  destruct (String.eqb_spec name "delete_memory") as [->|H5].
  { known_tool. destruct (not_ arguments) eqn:En.
    - rewrite !(not_items _ _ En). settle.
    - destruct (items arguments !! "memory_id") as [v|]; [|settle].
      destruct (py_int int_of_str v); settle. }
  cbn [andb orb negb]. settle.
Qed.

End DispatcherClaims.

(** ** The dispatcher at concrete invocations *)

(** C1 as stated fails at the empty mapping: [get_memory] with [{}] raises
    and returns no text. *)
Lemma C1_empty_mapping_counterexample :
  get (Some ∅) "memory_id" = VNone /\
  get (Some ∅) "title" = VNone /\
  handle_call_tool decimal_int_of_str "get_memory" (Some ∅)
    "2024-03-01T08:00:00" db_two =
    (Raise (ValueError "Missing arguments"), db_two) /\
  handle_call_tool decimal_int_of_str "get_memory" (Some ∅)
    "2024-03-01T08:00:00" db_two <>
    (Return [TextContent "Error: Please provide either a memory_id or title."],
     db_two).
Proof.
  split; [reflexivity|]. split; [reflexivity|]. split; [reflexivity|].
  discriminate.
Qed.

(** [{"title": null}]: a mapping with a key that supplies neither
    memory_id nor title, sent to a manager whose connection is closed. *)
Lemma C1_get_memory_neither_witness :
  ({[ "title" := VNone ]} : gmap string value) <> ∅ /\
  get (Some {[ "title" := VNone ]}) "memory_id" = VNone /\
  get (Some {[ "title" := VNone ]}) "title" = VNone /\
  handle_call_tool decimal_int_of_str "get_memory"
    (Some {[ "title" := VNone ]}) "2024-03-01T08:00:00"
    (DatabaseManager.close db_two) =
  (Return [TextContent "Error: Please provide either a memory_id or title."],
   DatabaseManager.close db_two).
Proof.
  assert (Hne : ({[ "title" := VNone ]} : gmap string value) <> ∅)
    by (intros H; apply (f_equal (fun m => m !! "title")) in H;
        vm_compute in H; discriminate).
  split; [exact Hne|]. split; [reflexivity|]. split; [reflexivity|].
  apply (proj1 (C1_get_memory_neither decimal_int_of_str
                  "2024-03-01T08:00:00" (DatabaseManager.close db_two)));
    [exact Hne | reflexivity | reflexivity].
Defined.

(** C7 as stated fails at the same invocation: it is none of the malformed
    ones of the specification, and the dispatcher raises. *)
Lemma C7_get_memory_counterexample :
  spec_malformed "get_memory" (Some ∅) = false /\
  is_Raise (fst (handle_call_tool decimal_int_of_str "get_memory" (Some ∅)
                   "2024-03-01T08:00:00" db_two)) = true.
Proof. split; reflexivity. Qed.

Lemma C7_raises_iff_malformed_witness :
  existsb (String.eqb "bogus_tool") tools = false /\
  handle_call_tool decimal_int_of_str "bogus_tool" (Some ∅)
    "2024-03-01T08:00:00" db_two =
  (Raise (ValueError "Unknown tool: bogus_tool"), db_two).
Proof.
  split; [reflexivity|].
  apply (proj1 (proj2 (C7_raises_iff_malformed decimal_int_of_str
                         "bogus_tool" (Some ∅) "2024-03-01T08:00:00" db_two))).
  reflexivity.
Defined.

(** * Further properties of the store *)

Module TableFacts.
Import DatabaseManager StoreFacts.

(** What [close] undoes is redone by the first lines of the next method. *)
Lemma connect_close db : connect (close db) = connect db.
Proof. destruct db as [[] rows]; reflexivity. Qed.

Lemma find_app_snoc {A} (f : A -> bool) l y :
  List.find f (l ++ [y]) =
  match List.find f l with
  | Some x => Some x
  | None => if f y then Some y else None
  end.
Proof.
  induction l as [|x l IH]; cbn [app List.find]; [reflexivity|].
  destruct (f x); [reflexivity | exact IH].
Qed.

Lemma add_memory_eq T C now db :
  add_memory T C now db =
  (new_rowid (memories db),
   mk true (memories db ++
            [mkMemory (new_rowid (memories db)) T C now now])).
Proof.
  unfold add_memory. cbv zeta. rewrite or_0_same, (memories_connect db),
    (conn_connect db). reflexivity.
Qed.

Lemma get_memory_by_title_eq T db :
  get_memory_by_title T db =
  (List.find (fun r => String.eqb (title r) T) (memories db), connect db).
Proof. unfold get_memory_by_title. rewrite memories_connect. reflexivity. Qed.

Lemma list_memories_eq db :
  list_memories db =
  (List.map (fun r => (id r, title r)) (memories db), connect db).
Proof. unfold list_memories. rewrite memories_connect. reflexivity. Qed.

(** No stored row has the id that the next insertion will get. *)
Lemma find_new_rowid rows :
  List.find (fun r => Z.eqb (id r) (new_rowid rows)) rows = None.
Proof.
  destruct (List.find _ rows) as [m|] eqn:E; [|reflexivity].
  apply find_some in E as [Hin Heq]. apply Z.eqb_eq in Heq.
  pose proof (new_rowid_above _ _ Hin). lia.
Qed.

(** In a table in ascending order the first row that passes a test has the
    lowest id of those that pass. *)
Lemma find_lowest (f : Memory -> bool) rows m :
  ascending rows -> List.find f rows = Some m ->
  forall r, In r rows -> f r = true -> id m <= id r.
Proof.
  unfold ascending. induction 1 as [|a l Hs IH Ha]; cbn [List.find];
    [discriminate|].
  destruct (f a) eqn:Efa.
  - intros [= <-] r [<-|Hr] _; [lia|].
    rewrite Forall_forall in Ha. specialize (Ha r).
    assert (id a < id r) by (apply Ha, list_elem_of_In, Hr). lia.
  - intros Hfind r [<-|Hr] Hfr; [congruence|]. exact (IH Hfind r Hr Hfr).
Qed.

End TableFacts.

Section StoreExtras.
Import DatabaseManager StoreFacts TableFacts.

(** X1. [close] keeps the table and closes the connection, closing twice is
    closing once, and a method called on a closed manager reopens it: it
    returns what it returns on the open manager and leaves the same manager
    behind. *)
Theorem X1_close_then_call (T C now : string) (o1 o2 : option string)
    (memory_id : Z) (db : t) :
  (conn (close db) = false /\ memories (close db) = memories db /\
   close (close db) = close db) /\
  add_memory T C now (close db) = add_memory T C now db /\
  get_memory_by_id memory_id (close db) = get_memory_by_id memory_id db /\
  get_memory_by_title T (close db) = get_memory_by_title T db /\
  list_memories (close db) = list_memories db /\
  update_memory memory_id o1 o2 now (close db) =
    update_memory memory_id o1 o2 now db /\
  delete_memory memory_id (close db) = delete_memory memory_id db.
Proof.
  split; [destruct db as [[] rows]; repeat split|].
  unfold add_memory, get_memory_by_id, get_memory_by_title, list_memories,
    update_memory, delete_memory, get_memory_by_id.
  rewrite !connect_close. repeat split.
Qed.

(** X2. [get_memory_by_title] returns a stored record with exactly the
    given title, and returns [None] exactly when no stored record has that
    title. *)
Theorem X2_get_memory_by_title_exact (T : string) (db : t) :
  match fst (get_memory_by_title T db) with
  | Some m => title m = T /\ In m (memories db)
  | None => forall r, In r (memories db) -> title r <> T
  end.
Proof.
  rewrite get_memory_by_title_eq. cbn [fst].
  destruct (List.find _ _) as [m|] eqn:E.
  - apply find_some in E as [Hin Heq]. apply String.eqb_eq in Heq.
    split; assumption.
  - intros r Hr Ht. pose proof (find_none _ _ E r Hr) as Hf.
    cbv beta in Hf. apply String.eqb_neq in Hf. contradiction.
Qed.

(** X3. When several records share a title, [get_memory_by_title] returns
    the one that comes first in the table: in a table in ascending order of
    ids, the one with the lowest id. *)
Theorem X3_get_memory_by_title_lowest (T : string) (db : t) (m : Memory) :
  ascending (memories db) ->
  fst (get_memory_by_title T db) = Some m ->
  forall r, In r (memories db) -> title r = T -> id m <= id r.
Proof.
  rewrite get_memory_by_title_eq. cbn [fst]. intros Ha Hf r Hr Ht.
  apply (find_lowest _ _ _ Ha Hf r Hr). apply String.eqb_eq. exact Ht.
Qed.

Lemma X3_get_memory_by_title_lowest_witness :
  ascending (memories (snd (add_memory "ideas" "later" "2024-04-01T00:00:00"
                              db_two))) /\
  fst (get_memory_by_title "ideas"
         (snd (add_memory "ideas" "later" "2024-04-01T00:00:00" db_two)))
    = Some row_2 /\
  id row_2 <= id (mkMemory 3 "ideas" "later" "2024-04-01T00:00:00"
                    "2024-04-01T00:00:00").
Proof.
  assert (Ha : ascending
                 (memories (snd (add_memory "ideas" "later"
                                   "2024-04-01T00:00:00" db_two)))).
  { repeat constructor. }
  split; [exact Ha|]. split; [reflexivity|].
  apply (X3_get_memory_by_title_lowest "ideas" _ row_2 Ha eq_refl).
  - right. right. left. reflexivity.
  - reflexivity.
Defined.

(** X4. After [add_memory] of a title, [get_memory_by_title] of that title
    finds the new record when no record had the title, and still finds the
    record it found before when one had. *)
Theorem X4_add_then_get_by_title (T C now : string) (db : t) :
  fst (get_memory_by_title T (snd (add_memory T C now db))) =
  match fst (get_memory_by_title T db) with
  | Some m => Some m
  | None => Some (mkMemory (fst (add_memory T C now db)) T C now now)
  end.
Proof.
  rewrite add_memory_eq, !get_memory_by_title_eq. cbn [fst snd memories].
  rewrite find_app_snoc. cbn [title]. rewrite String.eqb_refl. reflexivity.
Qed.

(** X5. [add_memory] appends: a lookup by any id finds what it found
    before, except that the returned id, which found nothing, now finds the
    new record; and the listing is the former listing followed by the new id
    and title. *)
Theorem X5_add_keeps_records (T C now : string) (db : t) :
  fst (get_memory_by_id (fst (add_memory T C now db)) db) = None /\
  (forall i,
     fst (get_memory_by_id i (snd (add_memory T C now db))) =
     match fst (get_memory_by_id i db) with
     | Some m => Some m
     | None =>
         if Z.eqb (fst (add_memory T C now db)) i
         then Some (mkMemory (fst (add_memory T C now db)) T C now now)
         else None
     end) /\
  fst (list_memories (snd (add_memory T C now db))) =
    (fst (list_memories db) ++ [(fst (add_memory T C now db), T)])%list.
Proof.
  rewrite add_memory_eq, !list_memories_eq. cbn [fst snd memories].
  split; [|split].
  - rewrite get_memory_by_id_eq. apply find_new_rowid.
  - intros i. rewrite !get_memory_by_id_eq. cbn [fst memories].
    rewrite find_app_snoc. reflexivity.
  - rewrite List.map_app. reflexivity.
Qed.

End StoreExtras.

Module UpdateFacts.
Import DatabaseManager StoreFacts TableFacts.

(** No assignment of [update_memory] touches the id or [created_at]. *)
Lemma set_columns_created_at items r :
  created_at (fold_left (fun r a => set_column a r) items r) = created_at r.
Proof.
  revert r. induction items as [|a items IH]; intros r; cbn [fold_left];
    [reflexivity|].
  rewrite IH. destruct a as [[] v]; reflexivity.
Qed.

Lemma sql_update_keeps {B} (f : Memory -> B) items memory_id rows :
  (forall r, f (fold_left (fun r a => set_column a r) items r) = f r) ->
  List.map f (sql_update items memory_id rows) = List.map f rows.
Proof.
  intros Hf. unfold sql_update. rewrite List.map_map. apply List.map_ext.
  intros r. destruct (Z.eqb (id r) memory_id); [apply Hf | reflexivity].
Qed.

(** The table after [update_memory], whatever it was given. *)
Lemma update_memory_table memory_id o1 o2 now db :
  memories (snd (update_memory memory_id o1 o2 now db)) = memories db \/
  exists items,
    memories (snd (update_memory memory_id o1 o2 now db)) =
    sql_update items memory_id (memories db).
Proof.
  rewrite update_memory_eq.
  destruct (List.find _ _); [destruct o1, o2|]; cbn [snd memories];
    rewrite ?(memories_connect db); eauto.
Qed.

Lemma filter_keeps_all {A} (f : A -> bool) l :
  Forall (fun x => f x = true) l -> List.filter f l = l.
Proof.
  induction 1 as [|x l Hx _ IH]; cbn [List.filter]; [reflexivity|].
  rewrite Hx, IH. reflexivity.
Qed.

Lemma find_id_sql_delete_other memory_id other rows :
  other <> memory_id ->
  List.find (fun r => Z.eqb (id r) other) (sql_delete memory_id rows) =
  List.find (fun r => Z.eqb (id r) other) rows.
Proof.
  intros Hne. unfold sql_delete.
  induction rows as [|x rows IH]; cbn [List.filter List.find]; [reflexivity|].
  destruct (Z.eqb_spec (id x) memory_id) as [E|E]; cbn [negb List.find].
  - destruct (Z.eqb_spec (id x) other); [congruence | exact IH].
  - destruct (Z.eqb (id x) other); [reflexivity | exact IH].
Qed.

(** In a table in ascending order, deleting a stored id takes one row
    away. *)
Lemma sql_delete_one memory_id rows m :
  ascending rows ->
  List.find (fun r => Z.eqb (id r) memory_id) rows = Some m ->
  S (length (sql_delete memory_id rows)) = length rows.
Proof.
  unfold ascending, sql_delete.
  induction 1 as [|a l Hs IH Ha]; cbn [List.find List.filter];
    [discriminate|].
  destruct (Z.eqb_spec (id a) memory_id) as [E|E]; cbn [negb].
  - intros _. rewrite filter_keeps_all; [reflexivity|].
    eapply Forall_impl; [exact Ha|]. cbv beta. intros r Hr.
    apply negb_true_iff, Z.eqb_neq. lia.
  - intros Hf. cbn [length]. rewrite (IH Hf). reflexivity.
Qed.

End UpdateFacts.

Section StoreExtras2.
Import DatabaseManager StoreFacts TableFacts UpdateFacts.

(** X6. Whatever [update_memory] is given, it keeps the number of rows, the
    id of every row and the [created_at] of every row. *)
Theorem X6_update_keeps_identity (memory_id : Z) (o1 o2 : option string)
    (now : string) (db : t) :
  length (memories (snd (update_memory memory_id o1 o2 now db))) =
    length (memories db) /\
  List.map id (memories (snd (update_memory memory_id o1 o2 now db))) =
    List.map id (memories db) /\
  List.map created_at (memories (snd (update_memory memory_id o1 o2 now db))) =
    List.map created_at (memories db).
Proof.
  destruct (update_memory_table memory_id o1 o2 now db) as [->|[items ->]];
    [repeat split|].
  split; [unfold sql_update; apply length_map|]. split.
  - apply sql_update_keeps. intros r. apply set_columns_id.
  - apply sql_update_keeps. intros r. apply set_columns_created_at.
Qed.

(** X7. [update_memory] with a title and a content sets both and
    [updated_at] on the record with the id, and leaves a table without the id
    as it is; setting the title and then the content at the same clock
    reading leaves the same table as setting both at once. *)
Theorem X7_update_both_fields (memory_id : Z) (T C now : string) (db : t) :
  memories (snd (update_memory memory_id (Some T) (Some C) now db)) =
    match fst (get_memory_by_id memory_id db) with
    | None => memories db
    | Some _ =>
        List.map (fun r =>
          if Z.eqb (id r) memory_id
          then mkMemory (id r) T C (created_at r) now
          else r) (memories db)
    end /\
  memories (snd (update_memory memory_id None (Some C) now
                   (snd (update_memory memory_id (Some T) None now db)))) =
  memories (snd (update_memory memory_id (Some T) (Some C) now db)).
Proof.
  rewrite !update_memory_eq, get_memory_by_id_eq. cbn [fst].
  destruct (List.find (fun r => Z.eqb (id r) memory_id) (memories db))
    as [m|] eqn:E; cbn [snd memories].
  - split; [reflexivity|].
    unfold sql_update at 1 2.
    rewrite (find_id_map _ memory_id (memories db)), E.
    + cbn [option_map snd memories]. unfold sql_update.
      rewrite List.map_map. apply List.map_ext. intros r.
      destruct (Z.eqb (id r) memory_id) eqn:Er; cbn; rewrite Er; reflexivity.
    + intros r. destruct (Z.eqb (id r) memory_id); reflexivity.
  - rewrite (memories_connect db), E. cbn [snd].
    rewrite connect_connect, (memories_connect db). split; reflexivity.
Qed.

(** X9. In a table in ascending order of ids, [delete_memory] of a stored
    id removes exactly one row. *)
Theorem X9_delete_one_row (memory_id : Z) (db : t) (m : Memory) :
  ascending (memories db) ->
  fst (get_memory_by_id memory_id db) = Some m ->
  S (length (memories (snd (delete_memory memory_id db)))) =
  length (memories db).
Proof.
  rewrite get_memory_by_id_eq, delete_memory_eq. cbn [fst].
  intros Ha E. rewrite E. cbn [snd memories].
  exact (sql_delete_one _ _ _ Ha E).
Qed.

Lemma X9_delete_one_row_witness :
  ascending (memories db_two) /\
  fst (get_memory_by_id 1 db_two) = Some row_1 /\
  S (length (memories (snd (delete_memory 1 db_two)))) = 2%nat.
Proof.
  assert (Ha : ascending (memories db_two)) by (repeat constructor).
  split; [exact Ha|]. split; [reflexivity|].
  exact (X9_delete_one_row 1 db_two row_1 Ha eq_refl).
Defined.

(** X10. [delete_memory] of the id that [add_memory] has just returned
    succeeds and leaves the table as it was before the insertion. *)
Theorem X10_add_then_delete (T C now : string) (db : t) :
  fst (delete_memory (fst (add_memory T C now db))
         (snd (add_memory T C now db))) = true /\
  memories (snd (delete_memory (fst (add_memory T C now db))
                   (snd (add_memory T C now db)))) = memories db.
Proof.
  rewrite add_memory_eq, delete_memory_eq. cbn [fst snd memories].
  rewrite find_app_snoc, find_new_rowid. cbn [id]. rewrite Z.eqb_refl.
  cbn [fst snd memories]. split; [reflexivity|].
  unfold sql_delete. rewrite List.filter_app. cbn [List.filter id].
  rewrite Z.eqb_refl. cbn [negb].
  fold (sql_delete (new_rowid (memories db)) (memories db)).
  rewrite sql_delete_absent; [apply app_nil_r | apply find_new_rowid].
Qed.

End StoreExtras2.

Module RunFacts.
Import DatabaseManager StoreFacts TableFacts UpdateFacts.

(** The ids and the listing after a run of insertions, from any table. *)
Lemma run_adds_ids (adds : list (string * string * string)) (db : t) :
  fst (run (List.map add_of adds) db) =
    List.map (fun j => new_rowid (memories db) + Z.of_nat j)
      (seq 0 (length adds)) /\
  fst (list_memories (snd (run (List.map add_of adds) db))) =
    (fst (list_memories db) ++
     combine (fst (run (List.map add_of adds) db))
       (List.map (fun a => fst (fst a)) adds))%list.
Proof.
  revert db. induction adds as [|[[T C] now] adds IH]; intros db.
  - split; [reflexivity|]. cbn. rewrite app_nil_r. reflexivity.
  - change (List.map add_of ((T, C, now) :: adds))
      with (op_add T C now :: List.map add_of adds).
    rewrite run_add_cons. cbn [fst snd].
    destruct (IH (snd (add_memory T C now db))) as [IH1 IH2].
    rewrite IH2, IH1, new_rowid_add, add_memory_id.
    cbn [length seq List.map combine fst].
    rewrite <- seq_shift, List.map_map.
    split.
    + f_equal; [lia|]. apply List.map_ext. intros j. lia.
    + rewrite add_memory_eq, !list_memories_eq. cbn [fst snd memories].
      rewrite List.map_app, <- app_assoc. reflexivity.
Qed.

(** Bounds on the next id, from bounds on the ids of the table. *)
Lemma largest_rowid_within lo hi rows m :
  ids_within lo hi rows -> largest_rowid rows = Some m -> lo <= m <= hi.
Proof.
  unfold ids_within. intros H. revert m.
  induction H as [|r rows Hr _ IH]; cbn [largest_rowid]; [discriminate|].
  intros m. destruct (largest_rowid rows) as [m'|].
  - intros [= <-]. specialize (IH m' eq_refl). lia.
  - intros [= <-]. exact Hr.
Qed.

Lemma new_rowid_within hi rows :
  0 <= hi -> ids_within 1 hi rows -> 1 <= new_rowid rows <= hi + 1.
Proof.
  intros Hhi H. unfold new_rowid.
  destruct (largest_rowid rows) as [m|] eqn:E; [|lia].
  pose proof (largest_rowid_within _ _ _ _ H E). lia.
Qed.

Lemma ids_within_map lo hi (g : Memory -> Memory) rows :
  (forall r, id (g r) = id r) ->
  ids_within lo hi rows -> ids_within lo hi (List.map g rows).
Proof.
  intros Hg. unfold ids_within.
  induction 1 as [|r rows Hr _ IH]; cbn [List.map]; constructor;
    [rewrite Hg; exact Hr | exact IH].
Qed.

Lemma ids_within_filter lo hi (f : Memory -> bool) rows :
  ids_within lo hi rows -> ids_within lo hi (List.filter f rows).
Proof.
  unfold ids_within.
  induction 1 as [|r rows Hr _ IH]; cbn [List.filter]; [constructor|].
  destruct (f r); [constructor; assumption | exact IH].
Qed.

Lemma ids_within_wider lo hi hi' rows :
  hi <= hi' -> ids_within lo hi rows -> ids_within lo hi' rows.
Proof.
  intros Hle H. unfold ids_within in *.
  eapply Forall_impl; [exact H|]. cbv beta. intros r Hr. lia.
Qed.

(** One call keeps the order of the table and the bounds of its ids; an
    insertion raises the upper bound by one. *)
Lemma after_keeps (c : call) (k : nat) (db : t) :
  ascending (memories db) -> ids_within 1 (Z.of_nat k) (memories db) ->
  ascending (memories (after c db)) /\
  ids_within 1 (Z.of_nat (count_add_memory [c] + k)) (memories (after c db)).
Proof.
  intros Ha Hb.
  destruct c as [T C now|i|T| |i o1 o2 now|i|]; cbn [after].
  - split; [apply (ascending_kept T C None None now 0 db Ha)|].
    rewrite add_memory_eq. cbn [snd memories].
    change (count_add_memory [call_add_memory T C now]) with 1%nat.
    apply Forall_app. split.
    + eapply ids_within_wider; [|exact Hb]. lia.
    + constructor; [|constructor]. cbn [id].
      pose proof (new_rowid_within (Z.of_nat k) _ ltac:(lia) Hb). lia.
  - rewrite get_memory_by_id_eq. cbn [snd]. rewrite memories_connect.
    split; assumption.
  - rewrite get_memory_by_title_eq. cbn [snd]. rewrite memories_connect.
    split; assumption.
  - rewrite list_memories_eq. cbn [snd]. rewrite memories_connect.
    split; assumption.
  - split; [apply (ascending_kept "" "" o1 o2 now i db Ha)|].
    change (count_add_memory [call_update_memory i o1 o2 now]) with 0%nat.
    destruct (update_memory_table i o1 o2 now db) as [->|[items ->]];
      [exact Hb|].
    apply ids_within_map; [|exact Hb].
    intros r. destruct (Z.eqb (id r) i); [apply set_columns_id | reflexivity].
  - split; [apply (ascending_kept "" "" None None "" i db Ha)|].
    change (count_add_memory [call_delete_memory i]) with 0%nat.
    rewrite delete_memory_eq.
    destruct (List.find _ _); cbn [snd memories];
      [apply ids_within_filter; exact Hb | rewrite memories_connect; exact Hb].
  - assert (Hm : memories (close db) = memories db)
      by (destruct db as [[] rows]; reflexivity).
    rewrite Hm. split; assumption.
Qed.

Lemma after_all_keeps (cs : list call) (k : nat) (db : t) :
  ascending (memories db) -> ids_within 1 (Z.of_nat k) (memories db) ->
  ascending (memories (after_all cs db)) /\
  ids_within 1 (Z.of_nat (count_add_memory cs + k))
    (memories (after_all cs db)).
Proof.
  revert k db. induction cs as [|c cs IH]; intros k db Ha Hb.
  - split; assumption.
  - destruct (after_keeps c k db Ha Hb) as [Ha1 Hb1].
    destruct (IH _ _ Ha1 Hb1) as [Ha2 Hb2].
    split; [exact Ha2|].
    replace (count_add_memory (c :: cs) + k)%nat
      with (count_add_memory cs + (count_add_memory [c] + k))%nat;
      [exact Hb2|].
    unfold count_add_memory. cbn [List.filter].
    destruct c; cbn [length]; lia.
Qed.

End RunFacts.

Section StoreExtras3.
Import DatabaseManager StoreFacts TableFacts UpdateFacts RunFacts.

(** X11. On a new database, [n] insertions in a row return the ids 1, 2,
    ..., [n] in this order, and the listing then shows these ids with the
    titles given, in the order of the insertions. *)
Theorem X11_ids_from_new_database (adds : list (string * string * string))
    (c : bool) :
  fst (run (List.map add_of adds) (mk c [])) =
    List.map Z.of_nat (seq 1 (length adds)) /\
  fst (list_memories (snd (run (List.map add_of adds) (mk c [])))) =
    combine (List.map Z.of_nat (seq 1 (length adds)))
      (List.map (fun a => fst (fst a)) adds).
Proof.
  destruct (run_adds_ids adds (mk c [])) as [H1 H2].
  assert (Hids : fst (run (List.map add_of adds) (mk c [])) =
                 List.map Z.of_nat (seq 1 (length adds))).
  { rewrite H1. rewrite <- seq_shift, List.map_map.
    apply List.map_ext. intros j. cbn [memories new_rowid largest_rowid]. lia. }
  split; [exact Hids|].
  rewrite H2, Hids, list_memories_eq. reflexivity.
Qed.

(** X12. From a new database, after any sequence of calls of the methods
    of the manager, [close] among them, the table is in ascending order of
    ids, so that no two records share an id, and every id lies between 1 and
    the number of insertions made. *)
Theorem X12_reachable_tables (cs : list call) (c : bool) :
  ascending (memories (after_all cs (mk c []))) /\
  NoDup (List.map id (memories (after_all cs (mk c [])))) /\
  Forall (fun r => 1 <= id r <= Z.of_nat (count_add_memory cs))
    (memories (after_all cs (mk c []))).
Proof.
  destruct (after_all_keeps cs 0 (mk c [])) as [Ha Hb];
    [constructor | constructor |].
  rewrite Nat.add_0_r in Hb. split; [exact Ha|]. split; [|exact Hb].
  clear Hb. unfold ascending in Ha.
  induction Ha as [|a l Hs IH Hl]; cbn [List.map]; constructor; [|exact IH].
  intros Hin. apply list_elem_of_In, in_map_iff in Hin as (r & Hr & Hin).
  rewrite Forall_forall in Hl.
  assert (id a < id r) by (apply Hl, list_elem_of_In, Hin). lia.
Qed.

End StoreExtras3.

(** * Further properties of the tools and the dispatcher *)

Section DispatcherFacts.
Variable int_of_str : string -> exn + Z.

Lemma lookup_nonempty (arguments : gmap string value) key v :
  arguments !! key = Some v -> not_ (Some arguments) = false.
Proof.
  intros H. apply not_nonempty. intros ->. rewrite lookup_empty in H.
  discriminate.
Qed.

Lemma get_lookup (arguments : gmap string value) key v :
  arguments !! key = Some v -> get (Some arguments) key = v.
Proof.
  intros H. unfold get, items. change (default ∅ (Some arguments))
    with arguments. rewrite H. reflexivity.
Qed.

(** The branches of the dispatcher, once the mapping has a key. *)
Lemma dispatch_remember (arguments : gmap string value) t c now db :
  arguments !! "title" = Some t -> arguments !! "content" = Some c ->
  handle_call_tool int_of_str "remember" (Some arguments) now db =
  text_result (remember t c now db).
Proof.
  intros Ht Hc. unfold handle_call_tool.
  cbn [String.eqb Ascii.eqb Bool.eqb]. rewrite (lookup_nonempty _ _ _ Ht).
  unfold items. change (default ∅ (Some arguments)) with arguments.
  rewrite Ht, Hc. reflexivity.
Qed.

Lemma dispatch_get_memory (arguments : gmap string value) now db :
  not_ (Some arguments) = false ->
  handle_call_tool int_of_str "get_memory" (Some arguments) now db =
  text_result
    (get_memory int_of_str (get (Some arguments) "memory_id")
       (get (Some arguments) "title") db).
Proof.
  intros Hn. unfold handle_call_tool.
  cbn [String.eqb Ascii.eqb Bool.eqb]. rewrite Hn. reflexivity.
Qed.

Lemma dispatch_update_memory (arguments : gmap string value) v n now db :
  arguments !! "memory_id" = Some v -> py_int int_of_str v = inr n ->
  handle_call_tool int_of_str "update_memory" (Some arguments) now db =
  text_result
    (update_memory n (get (Some arguments) "title")
       (get (Some arguments) "content") now db).
Proof.
  intros Hv Hn. unfold handle_call_tool.
  cbn [String.eqb Ascii.eqb Bool.eqb]. rewrite (lookup_nonempty _ _ _ Hv).
  unfold items at 1. change (default ∅ (Some arguments)) with arguments.
  rewrite Hv, Hn. reflexivity.
Qed.

Lemma dispatch_delete_memory (arguments : gmap string value) v n now db :
  arguments !! "memory_id" = Some v -> py_int int_of_str v = inr n ->
  handle_call_tool int_of_str "delete_memory" (Some arguments) now db =
  text_result (delete_memory n db).
Proof.
  intros Hv Hn. unfold handle_call_tool.
  cbn [String.eqb Ascii.eqb Bool.eqb]. rewrite (lookup_nonempty _ _ _ Hv).
  unfold items at 1. change (default ∅ (Some arguments)) with arguments.
  rewrite Hv, Hn. reflexivity.
Qed.

(** [get_memory] of the mapping that holds an integer id and nothing
    else. *)
Lemma dispatch_get_memory_id (n : Z) now db :
  handle_call_tool int_of_str "get_memory"
    (Some {[ "memory_id" := VInt n ]}) now db =
  (Return [TextContent
             (show_memory (fst (DatabaseManager.get_memory_by_id n db)))],
   DatabaseManager.connect db).
Proof.
  assert (Hid : ({[ "memory_id" := VInt n ]} : gmap string value)
                  !! "memory_id" = Some (VInt n))
    by apply lookup_singleton_eq.
  rewrite dispatch_get_memory; [|exact (lookup_nonempty _ _ _ Hid)].
  rewrite (get_lookup _ _ _ Hid). unfold get_memory.
  cbn [is_None negb py_int]. rewrite StoreFacts.get_memory_by_id_eq.
  reflexivity.
Qed.

End DispatcherFacts.

Section DispatcherExtras.
Variable int_of_str : string -> exn + Z.

(** X13. [remember] with a title and a content that are strings answers
    "Memory stored successfully with ID: <id>." with the id of the new
    record, and [get_memory] with that id then answers with that title and
    that content. *)
Theorem X13_remember_then_get_memory (arguments : gmap string value)
    (T C now now' : string) (db : DatabaseManager.t) :
  arguments !! "title" = Some (VStr T) ->
  arguments !! "content" = Some (VStr C) ->
  handle_call_tool int_of_str "remember" (Some arguments) now db =
    (Return [TextContent
               ("Memory stored successfully with ID: " ++
                str_int (fst (DatabaseManager.add_memory T C now db)) ++ ".")],
     snd (DatabaseManager.add_memory T C now db)) /\
  fst (handle_call_tool int_of_str "get_memory"
         (Some {[ "memory_id" :=
                    VInt (fst (DatabaseManager.add_memory T C now db)) ]})
         now'
         (snd (handle_call_tool int_of_str "remember" (Some arguments)
                 now db))) =
    Return [TextContent ("Title: " ++ T ++ nl ++ nl ++ "Content: " ++ C)].
Proof.
  intros Ht Hc.
  assert (Hcall :
    handle_call_tool int_of_str "remember" (Some arguments) now db =
    (Return [TextContent
               ("Memory stored successfully with ID: " ++
                str_int (fst (DatabaseManager.add_memory T C now db)) ++ ".")],
     snd (DatabaseManager.add_memory T C now db))).
  { rewrite (dispatch_remember _ _ _ _ _ _ Ht Hc).
    unfold remember, db_add_memory. cbn [sqlite_text].
    destruct (DatabaseManager.add_memory T C now db). reflexivity. }
  split; [exact Hcall|].
  rewrite Hcall. cbn [snd]. rewrite dispatch_get_memory_id. cbn [fst].
  rewrite TableFacts.add_memory_eq, StoreFacts.get_memory_by_id_eq.
  cbn [fst snd DatabaseManager.memories].
  rewrite TableFacts.find_app_snoc, TableFacts.find_new_rowid.
  cbn [DatabaseManager.id]. rewrite Z.eqb_refl. reflexivity.
Qed.

(** X14. [remember] with both keys present, each a string or null, and a
    null title or content stores nothing and answers with the text of the
    failed NOT NULL constraint, naming the title when the title is null and
    the content otherwise; it does not raise. *)
Theorem X14_remember_null (arguments : gmap string value) (t c : value)
    (now : string) (db : DatabaseManager.t) :
  arguments !! "title" = Some t ->
  arguments !! "content" = Some c ->
  is_int t = false ->
  is_int c = false ->
  is_None t || is_None c = true ->
  handle_call_tool int_of_str "remember" (Some arguments) now db =
  (Return [TextContent
             ("Error storing memory: NOT NULL constraint failed: memories." ++
              (if is_None t then "title" else "content"))],
   DatabaseManager.connect db) /\
  DatabaseManager.memories
    (snd (handle_call_tool int_of_str "remember" (Some arguments) now db)) =
  DatabaseManager.memories db.
Proof.
  intros Ht Hc _ _ Hnull. rewrite (dispatch_remember _ _ _ _ _ _ Ht Hc).
  unfold remember, db_add_memory.
  destruct t, c; try discriminate Hnull; cbn [sqlite_text is_None];
    (split; [reflexivity | apply StoreFacts.memories_connect]).
Qed.

(** X15. [update_memory] with a memory_id that [int] accepts and neither
    title nor content (each absent or null) answers "Error: Please provide
    at least one field to update (title or content)." and hands the manager
    back as it was, whether a record has the id or not. *)
Theorem X15_update_memory_no_field (arguments : gmap string value)
    (v : value) (n : Z) (now : string) (db : DatabaseManager.t) :
  arguments !! "memory_id" = Some v ->
  py_int int_of_str v = inr n ->
  get (Some arguments) "title" = VNone ->
  get (Some arguments) "content" = VNone ->
  handle_call_tool int_of_str "update_memory" (Some arguments) now db =
  (Return
     [TextContent
        "Error: Please provide at least one field to update (title or content)."],
   db).
Proof.
  intros Hv Hn Ht Hc. rewrite (dispatch_update_memory _ _ _ _ _ _ Hv Hn).
  rewrite Ht, Hc. reflexivity.
Qed.

(** X16. [update_memory] with a memory_id that [int] accepts, within the
    signed 64 bits, and a new title only: when a record has the id, the answer is "Memory <id> updated
    successfully." and [get_memory] with that id then shows the new title
    with the old content; when none has, the answer is "Memory with ID <id>
    not found." and the table is as it was. *)
Theorem X16_update_memory_then_get_memory (arguments : gmap string value)
    (v : value) (n : Z) (T now now' : string) (db : DatabaseManager.t) :
  arguments !! "memory_id" = Some v ->
  py_int int_of_str v = inr n ->
  fits_int64 n = true ->
  arguments !! "title" = Some (VStr T) ->
  get (Some arguments) "content" = VNone ->
  match fst (DatabaseManager.get_memory_by_id n db) with
  | Some m =>
      fst (handle_call_tool int_of_str "update_memory" (Some arguments)
             now db) =
        Return [TextContent ("Memory " ++ str_int n ++ " updated successfully.")]
      /\
      fst (handle_call_tool int_of_str "get_memory"
             (Some {[ "memory_id" := VInt n ]}) now'
             (snd (handle_call_tool int_of_str "update_memory"
                     (Some arguments) now db))) =
        Return [TextContent
                  ("Title: " ++ T ++ nl ++ nl ++
                   "Content: " ++ DatabaseManager.content m)]
  | None =>
      fst (handle_call_tool int_of_str "update_memory" (Some arguments)
             now db) =
        Return [TextContent ("Memory with ID " ++ str_int n ++ " not found.")]
      /\
      DatabaseManager.memories
        (snd (handle_call_tool int_of_str "update_memory" (Some arguments)
                now db)) = DatabaseManager.memories db
  end.
Proof.
  intros Hv Hn _ Ht Hc. rewrite (dispatch_update_memory _ _ _ _ _ _ Hv Hn).
  rewrite (get_lookup _ _ _ Ht), Hc. unfold update_memory.
  cbn [is_None andb sqlite_text].
  rewrite StoreFacts.update_memory_eq, StoreFacts.get_memory_by_id_eq.
  cbn [fst].
  destruct (List.find (fun r => Z.eqb (DatabaseManager.id r) n)
              (DatabaseManager.memories db)) as [m|] eqn:E.
  - split; [reflexivity|]. cbn [text_result fst snd].
    rewrite dispatch_get_memory_id, StoreFacts.get_memory_by_id_eq.
    cbn [fst DatabaseManager.memories]. unfold DatabaseManager.sql_update.
    rewrite (StoreFacts.find_id_map _ n (DatabaseManager.memories db)), E.
    + cbn [option_map]. rewrite (StoreFacts.find_id_spec _ _ _ E), Z.eqb_refl.
      reflexivity.
    + intros r. destruct (Z.eqb (DatabaseManager.id r) n); [|reflexivity].
      apply StoreFacts.set_columns_id.
  - split; [reflexivity|]. cbn [text_result fst snd].
    apply StoreFacts.memories_connect.
Qed.

(** X17. [delete_memory] with a memory_id that [int] accepts, within the
    signed 64 bits, answers
    "Memory <id> deleted successfully." when a record has the id and "Memory
    with ID <id> not found." when none has; afterwards [get_memory] with
    that id answers "Memory not found." and the same [delete_memory] again
    answers "Memory with ID <id> not found.". *)
Theorem X17_delete_memory_then_gone (arguments : gmap string value)
    (v : value) (n : Z) (now now' : string) (db : DatabaseManager.t) :
  arguments !! "memory_id" = Some v ->
  py_int int_of_str v = inr n ->
  fits_int64 n = true ->
  fst (handle_call_tool int_of_str "delete_memory" (Some arguments) now db) =
    Return [TextContent
              match fst (DatabaseManager.get_memory_by_id n db) with
              | Some _ => "Memory " ++ str_int n ++ " deleted successfully."
              | None => "Memory with ID " ++ str_int n ++ " not found."
              end] /\
  fst (handle_call_tool int_of_str "get_memory"
         (Some {[ "memory_id" := VInt n ]}) now'
         (snd (handle_call_tool int_of_str "delete_memory" (Some arguments)
                 now db))) =
    Return [TextContent "Memory not found."] /\
  fst (handle_call_tool int_of_str "delete_memory" (Some arguments) now'
         (snd (handle_call_tool int_of_str "delete_memory" (Some arguments)
                 now db))) =
    Return [TextContent ("Memory with ID " ++ str_int n ++ " not found.")].
Proof.
  intros Hv Hn _. rewrite !(dispatch_delete_memory _ _ _ _ _ _ Hv Hn).
  assert (Hsnd : forall d,
            snd (text_result (delete_memory n d)) =
            snd (DatabaseManager.delete_memory n d)).
  { intros d. unfold delete_memory.
    destruct (DatabaseManager.delete_memory n d) as [[] d']; reflexivity. }
  split; [|split].
  - unfold delete_memory.
    rewrite StoreFacts.delete_memory_eq, StoreFacts.get_memory_by_id_eq.
    cbn [fst]. destruct (List.find _ _); reflexivity.
  - rewrite Hsnd, dispatch_get_memory_id, StoreFacts.get_after_delete.
    reflexivity.
  - rewrite Hsnd. unfold delete_memory at 1.
    rewrite (StoreFacts.delete_memory_absent n
               (snd (DatabaseManager.delete_memory n db))
               (StoreFacts.get_after_delete n db)).
    reflexivity.
Qed.

(** X18. A memory_id sent as a string that [int] accepts is treated as the
    integer it denotes: for every tool name and every mapping, the
    dispatcher does the same with the string as with the integer. *)
Theorem X18_memory_id_as_string (name : string)
    (arguments : gmap string value) (s : string) (n : Z) (now : string)
    (db : DatabaseManager.t) :
  int_of_str s = inr n ->
  handle_call_tool int_of_str name
    (Some (<["memory_id" := VStr s]> arguments)) now db =
  handle_call_tool int_of_str name
    (Some (<["memory_id" := VInt n]> arguments)) now db.
Proof.
  intros Hs.
  assert (Hne : forall v, not_ (Some (<["memory_id" := v]> arguments)) = false).
  { intros v. apply (lookup_nonempty _ "memory_id" v), lookup_insert_eq. }
  assert (Hother : forall key v, key <> "memory_id" ->
            items (Some (<["memory_id" := v]> arguments)) !! key =
            arguments !! key).
  { intros key v Hk. unfold items.
    change (default ∅ (Some (<["memory_id" := v]> arguments)))
      with (<["memory_id" := v]> arguments).
    apply lookup_insert_ne. congruence. }
  assert (Hid : forall v,
            items (Some (<["memory_id" := v]> arguments)) !! "memory_id" =
            Some v).
  { intros v. unfold items. apply lookup_insert_eq. }
  unfold handle_call_tool, get. rewrite !Hne, !Hid.
  rewrite !(Hother "title"), !(Hother "content") by discriminate.
  cbn [default from_option id]. unfold get_memory.
  cbn [is_None negb py_int]. rewrite Hs. reflexivity.
Qed.

(** X19. [get_memory] with a memory_id that is a string [int] refuses
    does not raise: it answers "Error retrieving memory: " followed by the
    message of the exception, whatever the title, and hands the manager back
    as it was. *)
Theorem X19_get_memory_bad_id (arguments : gmap string value) (s : string)
    (e : exn) (now : string) (db : DatabaseManager.t) :
  arguments !! "memory_id" = Some (VStr s) ->
  int_of_str s = inl e ->
  handle_call_tool int_of_str "get_memory" (Some arguments) now db =
  (Return [TextContent ("Error retrieving memory: " ++ str_exn e)], db).
Proof.
  intros Hv He. rewrite dispatch_get_memory by exact (lookup_nonempty _ _ _ Hv).
  rewrite (get_lookup _ _ _ Hv). unfold get_memory.
  cbn [is_None negb py_int]. rewrite He. reflexivity.
Qed.

(** X20. After [remember] of a title and a content that are strings,
    [get_memory] by that title alone shows the new content when no record
    had the title before, and the content of the record that had it
    otherwise. *)
Theorem X20_remember_then_get_by_title (arguments : gmap string value)
    (T C now now' : string) (db : DatabaseManager.t) :
  arguments !! "title" = Some (VStr T) ->
  arguments !! "content" = Some (VStr C) ->
  fst (handle_call_tool int_of_str "get_memory"
         (Some {[ "title" := VStr T ]}) now'
         (snd (handle_call_tool int_of_str "remember" (Some arguments)
                 now db))) =
  Return [TextContent
            ("Title: " ++ T ++ nl ++ nl ++ "Content: " ++
             match fst (DatabaseManager.get_memory_by_title T db) with
             | Some m => DatabaseManager.content m
             | None => C
             end)].
Proof.
  intros Ht Hc. rewrite (dispatch_remember _ _ _ _ _ _ Ht Hc).
  unfold remember, db_add_memory. cbn [sqlite_text].
  rewrite TableFacts.add_memory_eq. cbn [text_result fst snd].
  assert (Hk : ({[ "title" := VStr T ]} : gmap string value) !! "title" =
               Some (VStr T)) by apply lookup_singleton_eq.
  rewrite dispatch_get_memory by exact (lookup_nonempty _ _ _ Hk).
  rewrite (get_lookup _ _ _ Hk).
  assert (Hid : get (Some ({[ "title" := VStr T ]} : gmap string value))
                  "memory_id" = VNone).
  { unfold get, items.
    change (default ∅ (Some ({[ "title" := VStr T ]} : gmap string value)))
      with ({[ "title" := VStr T ]} : gmap string value).
    rewrite lookup_singleton_ne by discriminate. reflexivity. }
  rewrite Hid. unfold get_memory. cbn [is_None negb sqlite_text].
  rewrite !TableFacts.get_memory_by_title_eq.
  cbn [fst snd DatabaseManager.memories text_result].
  rewrite TableFacts.find_app_snoc.
  destruct (List.find _ (DatabaseManager.memories db)) as [m|] eqn:E.
  - apply find_some in E as [_ E]. apply String.eqb_eq in E.
    cbn [show_memory]. rewrite E. reflexivity.
  - cbn [DatabaseManager.title]. rewrite String.eqb_refl. reflexivity.
Qed.

(** X21. Only [remember], [update_memory] and [delete_memory] can change
    the table: for every other name, known or not, and every mapping, the
    table after the call is the table before it. *)
Theorem X21_dispatcher_frame (name : string)
    (arguments : option (gmap string value)) (now : string)
    (db : DatabaseManager.t) :
  name = "remember" \/ name = "update_memory" \/ name = "delete_memory" \/
  DatabaseManager.memories
    (snd (handle_call_tool int_of_str name arguments now db)) =
  DatabaseManager.memories db.
Proof.
  destruct (String.eqb_spec name "remember") as [->|H1]; [tauto|].
  destruct (String.eqb_spec name "update_memory") as [->|H2]; [tauto|].
  destruct (String.eqb_spec name "delete_memory") as [->|H3]; [tauto|].
  do 3 right. unfold handle_call_tool.
  apply String.eqb_neq in H1, H2, H3. rewrite H1, H2, H3.
  destruct (String.eqb name "get_memory").
  - destruct (not_ arguments); [reflexivity|]. cbv zeta.
    unfold get_memory, text_result. cbn [snd].
    destruct (negb (is_None (get arguments "memory_id"))).
    + destruct (py_int int_of_str (get arguments "memory_id"));
        [reflexivity|].
      rewrite StoreFacts.get_memory_by_id_eq. cbn [snd].
      apply StoreFacts.memories_connect.
    + destruct (sqlite_text (get arguments "title")); [|reflexivity].
      rewrite TableFacts.get_memory_by_title_eq. cbn [snd].
      apply StoreFacts.memories_connect.
  - destruct (String.eqb name "list_memories"); [|reflexivity].
    unfold list_memories, text_result.
    rewrite TableFacts.list_memories_eq. cbn [snd].
    destruct (List.map _ _); cbn [snd]; apply StoreFacts.memories_connect.
Qed.

(** X22. The dispatcher and the advertised schemas agree on the required
    keys: for every tool that [handle_list_tools] advertises, a call that
    lacks a key its schema requires raises, and a call with a mapping that is
    not empty, has every required key and has no memory_id that [int]
    refuses returns a text; a name that is not advertised raises
    [ValueError("Unknown tool: <name>")]. *)
Theorem X22_schema_and_dispatcher
    (arguments : option (gmap string value)) (now : string)
    (db : DatabaseManager.t) :
  (forall tool, In tool handle_list_tools ->
     (forall key, In key (required_keys tool) ->
        missing arguments key = true ->
        is_Raise (fst (handle_call_tool int_of_str (types.name tool)
                         arguments now db)) = true) /\
     (not_ arguments = false ->
      (forall key, In key (required_keys tool) ->
         missing arguments key = false) ->
      bad_memory_id int_of_str arguments = false ->
      is_Raise (fst (handle_call_tool int_of_str (types.name tool)
                       arguments now db)) = false)) /\
  (forall name, ~ In name (List.map types.name handle_list_tools) ->
     handle_call_tool int_of_str name arguments now db =
     (Raise (ValueError ("Unknown tool: " ++ name)), db)).
Proof.
  split.
  - intros tool [<-|[<-|[<-|[<-|[<-|[]]]]]];
      cbn [types.name required_keys types.required types.inputSchema];
      unfold handle_call_tool, missing, bad_memory_id;
      cbn [String.eqb Ascii.eqb Bool.eqb]; split.
    + intros key [<-|[<-|[]]] Hm; destruct (not_ arguments);
        try reflexivity;
        destruct (items arguments !! "title"),
                 (items arguments !! "content");
        try discriminate Hm; reflexivity.
    + intros Hn Hall _. rewrite Hn.
      pose proof (Hall "title" (or_introl eq_refl)) as Ht.
      pose proof (Hall "content" (or_intror (or_introl eq_refl))) as Hc.
      destruct (items arguments !! "title"); [|discriminate Ht].
      destruct (items arguments !! "content"); [|discriminate Hc].
      reflexivity.
    + intros key [].
    + intros Hn _ _. rewrite Hn. reflexivity.
    + intros key [].
    + intros _ _ _. reflexivity.
    + intros key [<-|[]] Hm. destruct (not_ arguments); [reflexivity|].
      destruct (items arguments !! "memory_id"); [discriminate Hm|].
      reflexivity.
    + intros Hn Hall Hbad. rewrite Hn.
      pose proof (Hall "memory_id" (or_introl eq_refl)) as Hm.
      destruct (items arguments !! "memory_id") as [v|]; [|discriminate Hm].
      destruct (py_int int_of_str v); [discriminate Hbad | reflexivity].
    + intros key [<-|[]] Hm. destruct (not_ arguments); [reflexivity|].
      destruct (items arguments !! "memory_id"); [discriminate Hm|].
      reflexivity.
    + intros Hn Hall Hbad. rewrite Hn.
      pose proof (Hall "memory_id" (or_introl eq_refl)) as Hm.
      destruct (items arguments !! "memory_id") as [v|]; [|discriminate Hm].
      destruct (py_int int_of_str v); [discriminate Hbad | reflexivity].
  - intros name Hnot. unfold handle_call_tool.
    assert (Hne : forall known,
              In known (List.map types.name handle_list_tools) ->
              String.eqb name known = false).
    { intros known Hin. apply String.eqb_neq. intros ->. exact (Hnot Hin). }
    cbn [List.map handle_list_tools types.name] in Hne.
    rewrite !Hne by (cbn [In]; tauto). reflexivity.
Qed.

(** X23. The manager is closed when the server shuts down; a call of the
    dispatcher on the closed manager gives the answer it gives on the open
    one and leaves the same table. *)
Theorem X23_dispatch_after_close (name : string)
    (arguments : option (gmap string value)) (now : string)
    (db : DatabaseManager.t) :
  fst (handle_call_tool int_of_str name arguments now
         (DatabaseManager.close db)) =
    fst (handle_call_tool int_of_str name arguments now db) /\
  DatabaseManager.memories
    (snd (handle_call_tool int_of_str name arguments now
            (DatabaseManager.close db))) =
  DatabaseManager.memories
    (snd (handle_call_tool int_of_str name arguments now db)).
Proof.
  assert (Hm : DatabaseManager.memories (DatabaseManager.close db) =
               DatabaseManager.memories db)
    by (destruct db as [[] rows]; reflexivity).
  assert (Hadd : forall t c,
            db_add_memory t c now (DatabaseManager.close db) =
            db_add_memory t c now db).
  { intros t c. unfold db_add_memory, DatabaseManager.add_memory.
    rewrite !TableFacts.connect_close. reflexivity. }
  assert (Hid : forall n,
            DatabaseManager.get_memory_by_id n (DatabaseManager.close db) =
            DatabaseManager.get_memory_by_id n db).
  { intros n. unfold DatabaseManager.get_memory_by_id.
    rewrite TableFacts.connect_close. reflexivity. }
  assert (Htitle : forall t,
            DatabaseManager.get_memory_by_title t (DatabaseManager.close db) =
            DatabaseManager.get_memory_by_title t db).
  { intros t. unfold DatabaseManager.get_memory_by_title.
    rewrite TableFacts.connect_close. reflexivity. }
  assert (Hlist : DatabaseManager.list_memories (DatabaseManager.close db) =
                  DatabaseManager.list_memories db).
  { unfold DatabaseManager.list_memories.
    rewrite TableFacts.connect_close. reflexivity. }
  assert (Hupd : forall n o1 o2,
            DatabaseManager.update_memory n o1 o2 now
              (DatabaseManager.close db) =
            DatabaseManager.update_memory n o1 o2 now db).
  { intros n o1 o2.
    unfold DatabaseManager.update_memory, DatabaseManager.get_memory_by_id.
    rewrite !TableFacts.connect_close. reflexivity. }
  assert (Hdel : forall n,
            DatabaseManager.delete_memory n (DatabaseManager.close db) =
            DatabaseManager.delete_memory n db).
  { intros n.
    unfold DatabaseManager.delete_memory, DatabaseManager.get_memory_by_id.
    rewrite !TableFacts.connect_close. reflexivity. }
  unfold handle_call_tool.
  destruct (String.eqb name "remember").
  { destruct (not_ arguments); [split; [reflexivity | exact Hm]|].
    destruct (items arguments !! "title") as [t|];
      [|split; [reflexivity | exact Hm]].
    destruct (items arguments !! "content") as [c|];
      [|split; [reflexivity | exact Hm]].
    unfold remember. rewrite Hadd. split; reflexivity. }
  destruct (String.eqb name "get_memory").
  { destruct (not_ arguments); [split; [reflexivity | exact Hm]|].
    cbv zeta. unfold get_memory.
    destruct (negb (is_None (get arguments "memory_id"))).
    - destruct (py_int int_of_str (get arguments "memory_id"));
        [split; [reflexivity | exact Hm]|].
      rewrite Hid. split; reflexivity.
    - destruct (sqlite_text (get arguments "title"));
        [|split; [reflexivity | exact Hm]].
      rewrite Htitle. split; reflexivity. }
  destruct (String.eqb name "list_memories").
  { unfold list_memories. rewrite Hlist. split; reflexivity. }
  destruct (String.eqb name "update_memory").
  { destruct (not_ arguments); [split; [reflexivity | exact Hm]|].
    destruct (items arguments !! "memory_id") as [v|];
      [|split; [reflexivity | exact Hm]].
    destruct (py_int int_of_str v); [split; [reflexivity | exact Hm]|].
    cbv zeta. unfold update_memory.
    destruct (is_None (get arguments "title") &&
              is_None (get arguments "content"));
      [split; [reflexivity | exact Hm]|].
    rewrite Hupd. split; reflexivity. }
  destruct (String.eqb name "delete_memory").
  { destruct (not_ arguments); [split; [reflexivity | exact Hm]|].
    destruct (items arguments !! "memory_id") as [v|];
      [|split; [reflexivity | exact Hm]].
    destruct (py_int int_of_str v); [split; [reflexivity | exact Hm]|].
    unfold delete_memory. rewrite Hdel. split; reflexivity. }
  split; [reflexivity | exact Hm].
Qed.

End DispatcherExtras.

(** ** The further properties at concrete invocations *)

Lemma X13_remember_then_get_memory_witness :
  ({[ "title" := VStr "T"; "content" := VStr "C" ]} : gmap string value)
    !! "title" = Some (VStr "T") /\
  ({[ "title" := VStr "T"; "content" := VStr "C" ]} : gmap string value)
    !! "content" = Some (VStr "C") /\
  handle_call_tool decimal_int_of_str "remember"
    (Some {[ "title" := VStr "T"; "content" := VStr "C" ]})
    "2024-05-01T10:00:00" db_two =
  (Return [TextContent "Memory stored successfully with ID: 3."],
   DatabaseManager.mk true
     [row_1; row_2;
      DatabaseManager.mkMemory 3 "T" "C" "2024-05-01T10:00:00"
        "2024-05-01T10:00:00"]).
Proof.
  assert (Ht : ({[ "title" := VStr "T"; "content" := VStr "C" ]}
                  : gmap string value) !! "title" = Some (VStr "T"))
    by reflexivity.
  assert (Hc : ({[ "title" := VStr "T"; "content" := VStr "C" ]}
                  : gmap string value) !! "content" = Some (VStr "C"))
    by reflexivity.
  split; [exact Ht|]. split; [exact Hc|].
  exact (proj1 (X13_remember_then_get_memory decimal_int_of_str _ "T" "C"
                  "2024-05-01T10:00:00" "2024-05-01T10:05:00" db_two Ht Hc)).
Defined.

(** [{"memory_id": 999}], an id that no record has, sent to a manager whose
    connection is closed. *)
Lemma X15_update_memory_no_field_witness :
  ({[ "memory_id" := VInt 999 ]} : gmap string value) !! "memory_id" =
    Some (VInt 999) /\
  py_int decimal_int_of_str (VInt 999) = inr 999 /\
  get (Some {[ "memory_id" := VInt 999 ]}) "title" = VNone /\
  get (Some {[ "memory_id" := VInt 999 ]}) "content" = VNone /\
  handle_call_tool decimal_int_of_str "update_memory"
    (Some {[ "memory_id" := VInt 999 ]}) "2024-05-01T10:00:00"
    (DatabaseManager.close db_two) =
  (Return
     [TextContent
        "Error: Please provide at least one field to update (title or content)."],
   DatabaseManager.close db_two).
Proof.
  assert (Hv : ({[ "memory_id" := VInt 999 ]} : gmap string value)
                 !! "memory_id" = Some (VInt 999)) by reflexivity.
  split; [exact Hv|]. split; [reflexivity|]. split; [reflexivity|].
  split; [reflexivity|].
  exact (X15_update_memory_no_field decimal_int_of_str _ (VInt 999) 999
           "2024-05-01T10:00:00" (DatabaseManager.close db_two)
           Hv eq_refl eq_refl eq_refl).
Defined.

Lemma X18_memory_id_as_string_witness :
  decimal_int_of_str "2" = inr 2 /\
  handle_call_tool decimal_int_of_str "delete_memory"
    (Some (<["memory_id" := VStr "2"]> ∅)) "2024-05-01T10:00:00" db_two =
  handle_call_tool decimal_int_of_str "delete_memory"
    (Some (<["memory_id" := VInt 2]> ∅)) "2024-05-01T10:00:00" db_two.
Proof.
  split; [reflexivity|].
  exact (X18_memory_id_as_string decimal_int_of_str "delete_memory" ∅ "2" 2
           "2024-05-01T10:00:00" db_two eq_refl).
Defined.

Lemma X19_get_memory_bad_id_witness :
  ({[ "memory_id" := VStr "abc" ]} : gmap string value) !! "memory_id" =
    Some (VStr "abc") /\
  decimal_int_of_str "abc" =
    inl (ValueError "invalid literal for int() with base 10: 'abc'") /\
  handle_call_tool decimal_int_of_str "get_memory"
    (Some {[ "memory_id" := VStr "abc" ]}) "2024-05-01T10:00:00"
    (DatabaseManager.close db_two) =
  (Return [TextContent
     "Error retrieving memory: invalid literal for int() with base 10: 'abc'"],
   DatabaseManager.close db_two).
Proof.
  assert (Hv : ({[ "memory_id" := VStr "abc" ]} : gmap string value)
                 !! "memory_id" = Some (VStr "abc")) by reflexivity.
  split; [exact Hv|]. split; [reflexivity|].
  exact (X19_get_memory_bad_id decimal_int_of_str _ "abc" _
           "2024-05-01T10:00:00" (DatabaseManager.close db_two) Hv eq_refl).
Defined.

(** A second record with the title "ideas": the lookup by title still shows
    the content of the first. *)
Lemma X20_remember_then_get_by_title_witness :
  ({[ "title" := VStr "ideas"; "content" := VStr "new" ]}
     : gmap string value) !! "title" = Some (VStr "ideas") /\
  ({[ "title" := VStr "ideas"; "content" := VStr "new" ]}
     : gmap string value) !! "content" = Some (VStr "new") /\
  fst (handle_call_tool decimal_int_of_str "get_memory"
         (Some {[ "title" := VStr "ideas" ]}) "2024-05-01T10:05:00"
         (snd (handle_call_tool decimal_int_of_str "remember"
                 (Some {[ "title" := VStr "ideas"; "content" := VStr "new" ]})
                 "2024-05-01T10:00:00" db_two))) =
  Return [TextContent
            ("Title: ideas" ++ nl ++ nl ++ "Content: a memory server")].
Proof.
  assert (Ht : ({[ "title" := VStr "ideas"; "content" := VStr "new" ]}
                  : gmap string value) !! "title" = Some (VStr "ideas"))
    by reflexivity.
  assert (Hc : ({[ "title" := VStr "ideas"; "content" := VStr "new" ]}
                  : gmap string value) !! "content" = Some (VStr "new"))
    by reflexivity.
  split; [exact Ht|]. split; [exact Hc|].
  exact (X20_remember_then_get_by_title decimal_int_of_str _ "ideas" "new"
           "2024-05-01T10:00:00" "2024-05-01T10:05:00" db_two Ht Hc).
Defined.

(** [update_memory] is advertised with memory_id required; a call with a
    title only raises. *)
Lemma X22_schema_and_dispatcher_witness :
  In (types.mkTool "update_memory" "Update an existing memory."
        (types.mkSchema "object"
           [("memory_id",
             types.mkProperty "integer" "The ID of the memory to update");
            ("title",
             types.mkProperty "string" "Optional new title for the memory");
            ("content",
             types.mkProperty "string" "Optional new content for the memory")]
           (Some ["memory_id"])
           "updateMemoryArguments"))
     handle_list_tools /\
  missing (Some {[ "title" := VStr "x" ]}) "memory_id" = true /\
  is_Raise (fst (handle_call_tool decimal_int_of_str "update_memory"
                   (Some {[ "title" := VStr "x" ]}) "2024-05-01T10:00:00"
                   db_two)) = true.
Proof.
  assert (Hin : In (types.mkTool "update_memory" "Update an existing memory."
        (types.mkSchema "object"
           [("memory_id",
             types.mkProperty "integer" "The ID of the memory to update");
            ("title",
             types.mkProperty "string" "Optional new title for the memory");
            ("content",
             types.mkProperty "string" "Optional new content for the memory")]
           (Some ["memory_id"])
           "updateMemoryArguments"))
     handle_list_tools).
  { do 3 right. left. reflexivity. }
  split; [exact Hin|]. split; [reflexivity|].
  exact (proj1 (proj1 (X22_schema_and_dispatcher decimal_int_of_str
                         (Some {[ "title" := VStr "x" ]})
                         "2024-05-01T10:00:00" db_two) _ Hin)
           "memory_id" (or_introl eq_refl) eq_refl).
Defined.

(** * The store on every Python integer *)

Module CheckedFacts.
Import DatabaseManager StoreFacts TableFacts.

(** The lookup by id against the rows of the table. *)
Lemma find_id_None memory_id rows :
  List.find (fun r => Z.eqb (id r) memory_id) rows = None <->
  forall r, In r rows -> id r <> memory_id.
Proof.
  split.
  - intros H r Hr. apply Z.eqb_neq. exact (find_none _ _ H r Hr).
  - intros H. destruct (List.find _ rows) as [m|] eqn:E; [|reflexivity].
    apply find_some in E as [Hin Heq]. apply Z.eqb_eq in Heq.
    destruct (H m Hin Heq).
Qed.

Lemma find_id_Some memory_id rows :
  (exists m, List.find (fun r => Z.eqb (id r) memory_id) rows = Some m) <->
  exists r, In r rows /\ id r = memory_id.
Proof.
  split.
  - intros [m E]. apply find_some in E as [Hin Heq]. apply Z.eqb_eq in Heq.
    eauto.
  - intros (r & Hr & Hid).
    destruct (List.find _ rows) as [m|] eqn:E; [eauto|].
    destruct (proj1 (find_id_None _ _) E r Hr Hid).
Qed.

(** [Checked] on an integer that fits, and on one that does not. *)
Lemma get_memory_by_id_fits memory_id db :
  fits_int64 memory_id = true ->
  Checked.get_memory_by_id memory_id db =
  (inr (List.find (fun r => Z.eqb (id r) memory_id) (memories db)),
   connect db).
Proof.
  intros H. unfold Checked.get_memory_by_id.
  rewrite H, get_memory_by_id_eq. reflexivity.
Qed.

Lemma update_memory_fits memory_id o1 o2 now db :
  fits_int64 memory_id = true ->
  Checked.update_memory memory_id o1 o2 now db =
  (inr (fst (update_memory memory_id o1 o2 now db)),
   snd (update_memory memory_id o1 o2 now db)).
Proof.
  intros H. unfold Checked.update_memory. rewrite H.
  destruct (update_memory memory_id o1 o2 now db). reflexivity.
Qed.

Lemma delete_memory_fits memory_id db :
  fits_int64 memory_id = true ->
  Checked.delete_memory memory_id db =
  match List.find (fun r => Z.eqb (id r) memory_id) (memories db) with
  | None => (inr false, connect db)
  | Some _ => (inr true, mk true (sql_delete memory_id (memories db)))
  end.
Proof.
  intros H. unfold Checked.delete_memory. rewrite H, delete_memory_eq.
  destruct (List.find _ _); reflexivity.
Qed.

(** The table after [delete_memory] of an id that fits. *)
Lemma delete_memory_rows memory_id db :
  fits_int64 memory_id = true ->
  memories (snd (Checked.delete_memory memory_id db)) =
  sql_delete memory_id (memories db).
Proof.
  intros H. rewrite (delete_memory_fits _ _ H).
  destruct (List.find _ _) eqn:E; cbn [snd memories]; [reflexivity|].
  rewrite memories_connect, sql_delete_absent; [reflexivity | exact E].
Qed.

(** A table that is not empty has a row of largest id, and the next id is
    one more. *)
Lemma largest_rowid_attained rows :
  rows <> [] ->
  exists m, In m rows /\ (forall r, In r rows -> id r <= id m) /\
            largest_rowid rows = Some (id m).
Proof.
  induction rows as [|x rows IH]; [congruence|]. intros _.
  destruct rows as [|y rows].
  - exists x. cbn [largest_rowid In]. repeat split; [tauto|].
    intros r [<-|[]]. lia.
  - destruct IH as (m & Hm & Hmax & Hl); [discriminate|].
    change (largest_rowid (x :: y :: rows))
      with (match largest_rowid (y :: rows) with
            | None => Some (id x)
            | Some k => Some (Z.max (id x) k)
            end).
    rewrite Hl. destruct (Z.le_gt_cases (id x) (id m)) as [Hle|Hgt].
    + exists m. split; [right; exact Hm|]. split.
      * intros r [<-|Hr]; [exact Hle | exact (Hmax r Hr)].
      * f_equal. lia.
    + exists x. split; [left; reflexivity|]. split.
      * intros r [<-|Hr]; [lia|]. specialize (Hmax r Hr). lia.
      * f_equal. lia.
Qed.

(** Deleting the row that was just inserted gives the table back. *)
Lemma delete_new_row T C now db :
  delete_memory (fst (add_memory T C now db)) (snd (add_memory T C now db)) =
  (true, mk true (memories db)).
Proof.
  rewrite add_memory_eq, delete_memory_eq. cbn [fst snd memories].
  rewrite find_app_snoc, find_new_rowid. cbn [id]. rewrite Z.eqb_refl.
  f_equal. f_equal. unfold sql_delete. rewrite List.filter_app.
  cbn [List.filter id]. rewrite Z.eqb_refl. cbn [negb].
  fold (sql_delete (new_rowid (memories db)) (memories db)).
  rewrite sql_delete_absent; [apply app_nil_r | apply find_new_rowid].
Qed.

End CheckedFacts.

Section CheckedClaims.
Import DatabaseManager StoreFacts TableFacts CheckedFacts.

(** C2, as the store has it. The key is a plain [INTEGER PRIMARY KEY].
    Whatever insertions and deletions came before, on a table whose ids are
    below the largest row id, [add_memory] assigns 1 when the table is empty
    and otherwise one more than the largest id stored at that moment, so an
    id above every stored one; two insertions in a row are given
    consecutive ids; and when the record just inserted is deleted, the next
    insertion is given its id again. *)
Theorem C2_next_id_rule :
  (forall (T C now : string) (db : t),
     Forall (fun r => id r < rowid_max) (memories db) ->
     (memories db = [] -> fst (add_memory T C now db) = 1) /\
     (memories db <> [] ->
      exists m,
        In m (memories db) /\
        (forall r, In r (memories db) -> id r <= id m) /\
        fst (add_memory T C now db) = id m + 1) /\
     Forall (fun r => id r < fst (add_memory T C now db)) (memories db)) /\
  (forall (T C now T' C' now' : string) (db : t),
     Forall (fun r => id r < rowid_max) (memories db) ->
     fst (add_memory T C now db) < rowid_max ->
     fst (add_memory T' C' now' (snd (add_memory T C now db))) =
     fst (add_memory T C now db) + 1) /\
  (forall (T C now T' C' now' : string) (db : t),
     Forall (fun r => id r < rowid_max) (memories db) ->
     fst (delete_memory (fst (add_memory T C now db))
            (snd (add_memory T C now db))) = true /\
     fst (add_memory T' C' now'
            (snd (delete_memory (fst (add_memory T C now db))
                    (snd (add_memory T C now db))))) =
     fst (add_memory T C now db)).
Proof.
  split; [|split].
  - intros T C now db _. rewrite add_memory_id.
    generalize (memories db). intros rows.
    split; [intros ->; reflexivity|]. split.
    + intros Hne. destruct (largest_rowid_attained rows Hne)
        as (m & Hm & Hmax & Hl).
      exists m. unfold new_rowid. rewrite Hl. auto.
    + apply Forall_forall. intros r Hr. apply new_rowid_above.
      apply list_elem_of_In. exact Hr.
  - intros T C now T' C' now' db _ _.
    rewrite (add_memory_id T' C' now'). apply new_rowid_add.
  - intros T C now T' C' now' db _. rewrite delete_new_row.
    cbn [fst snd]. split; [reflexivity|]. rewrite !add_memory_id.
    reflexivity.
Qed.

(** On the table with the ids 1 and 2 the next id is 3. *)
Lemma C2_next_id_rule_witness :
  Forall (fun r => id r < rowid_max) (memories db_two) /\
  memories db_two <> [] /\
  (exists m,
     In m (memories db_two) /\
     (forall r, In r (memories db_two) -> id r <= id m) /\
     fst (add_memory "b" "second" "2024-01-01T09:05:00" db_two) = id m + 1) /\
  Forall (fun r => id r < 3) (memories db_two).
Proof.
  assert (Hb : Forall (fun r => id r < rowid_max) (memories db_two))
    by (repeat constructor).
  assert (Hne : memories db_two <> []) by discriminate.
  split; [exact Hb|]. split; [exact Hne|].
  destruct (proj1 C2_next_id_rule "b" "second" "2024-01-01T09:05:00" db_two Hb)
    as (_ & Hmax & Habove).
  split; [exact (Hmax Hne) | exact Habove].
Defined.

(** C4, as the store has it. For a [memory_id] within the signed 64 bits,
    [update_memory] returns [False] exactly when no row of the table has the
    id and [True] exactly when one has; when it returns [False] the table is
    unchanged; and when a row has the id and neither title nor content is
    given it returns [True] and the table is unchanged, [updated_at]
    included. For any other [memory_id] it raises [OverflowError] and the
    table is unchanged. *)
Theorem C4_update_result_checked (memory_id : Z) (T C : option string)
    (now : string) (db : t) :
  (fits_int64 memory_id = true ->
   (fst (Checked.update_memory memory_id T C now db) = inr false <->
    forall r, In r (memories db) -> id r <> memory_id) /\
   (fst (Checked.update_memory memory_id T C now db) = inr true <->
    exists r, In r (memories db) /\ id r = memory_id) /\
   (fst (Checked.update_memory memory_id T C now db) = inr false ->
    memories (snd (Checked.update_memory memory_id T C now db)) =
    memories db) /\
   ((exists r, In r (memories db) /\ id r = memory_id) ->
    fst (Checked.update_memory memory_id None None now db) = inr true /\
    memories (snd (Checked.update_memory memory_id None None now db)) =
    memories db)) /\
  (fits_int64 memory_id = false ->
   fst (Checked.update_memory memory_id T C now db) = inl too_large /\
   memories (snd (Checked.update_memory memory_id T C now db)) =
   memories db).
Proof.
  split.
  - intros Hfit. rewrite !(update_memory_fits _ _ _ _ _ Hfit).
    rewrite !update_memory_eq. cbn [fst snd].
    rewrite <- find_id_None, <- find_id_Some.
    destruct (List.find (fun r => Z.eqb (id r) memory_id) (memories db))
      as [m|] eqn:E.
    + assert (Htrue : forall o1 o2,
                fst (match o1, o2 with
                     | None, None => (true, connect db)
                     | Some t, None =>
                         (true, mk true (sql_update
                            [(col_title, t); (col_updated_at, now)]
                            memory_id (memories db)))
                     | None, Some c =>
                         (true, mk true (sql_update
                            [(col_content, c); (col_updated_at, now)]
                            memory_id (memories db)))
                     | Some t, Some c =>
                         (true, mk true (sql_update
                            [(col_title, t); (col_content, c);
                             (col_updated_at, now)]
                            memory_id (memories db)))
                     end) = true)
        by (intros [] []; reflexivity).
      rewrite Htrue. cbn [fst snd].
      split; [split; congruence|]. split; [split; eauto|].
      split; [congruence|]. intros _. split; [reflexivity|].
      apply memories_connect.
    + cbn [fst snd]. split; [tauto|]. split.
      * split; [congruence | intros [m' Hm']; discriminate].
      * split; [intros _; apply memories_connect|].
        intros [m' Hm']. discriminate.
  - intros Hfit. unfold Checked.update_memory. rewrite Hfit. cbn [fst snd].
    split; [reflexivity | apply memories_connect].
Qed.

Lemma C4_update_result_checked_witness :
  fits_int64 1 = true /\
  (exists r, In r (memories db_two) /\ id r = 1) /\
  fst (Checked.update_memory 1 None None "2024-02-01T12:00:00" db_two) =
    inr true /\
  memories (snd (Checked.update_memory 1 None None "2024-02-01T12:00:00"
                   db_two)) = [row_1; row_2].
Proof.
  assert (Hex : exists r, In r (memories db_two) /\ id r = 1)
    by (exists row_1; split; [left; reflexivity | reflexivity]).
  split; [reflexivity|]. split; [exact Hex|].
  exact (proj2 (proj2 (proj2 (proj1 (C4_update_result_checked 1 None None
                                       "2024-02-01T12:00:00" db_two)
                                eq_refl))) Hex).
Defined.

(** C4 as stated fails outside the 64 bits: no record has the id 2^63,
    and [update_memory] raises instead of returning [False]. *)
Lemma C4_update_overflow_counterexample :
  existsb (fun r => Z.eqb (id r) (2 ^ 63)) (memories db_two) = false /\
  Checked.update_memory (2 ^ 63) (Some "x") None "2024-02-01T12:00:00" db_two =
    (inl (OverflowError "Python int too large to convert to SQLite INTEGER"),
     db_two) /\
  fst (Checked.update_memory (2 ^ 63) (Some "x") None "2024-02-01T12:00:00"
         db_two) <> inr false.
Proof.
  split; [reflexivity|]. split; [reflexivity | discriminate].
Qed.

(** C6, as the store has it. For a [memory_id] within the signed 64 bits:
    after [delete_memory] no row of the table has the id and
    [get_memory_by_id] returns [None]; a second [delete_memory] returns
    [False] and leaves the table as it is; and on any table without the id,
    [delete_memory] returns [False] and changes nothing, however many times
    it is called. For any other [memory_id] both methods raise
    [OverflowError] and the table is unchanged. *)
Theorem C6_delete_then_absent_checked (memory_id : Z) (db : t) :
  (fits_int64 memory_id = true ->
   fst (Checked.get_memory_by_id memory_id
          (snd (Checked.delete_memory memory_id db))) = inr None /\
   (forall r, In r (memories (snd (Checked.delete_memory memory_id db))) ->
              id r <> memory_id) /\
   fst (Checked.delete_memory memory_id
          (snd (Checked.delete_memory memory_id db))) = inr false /\
   memories (snd (Checked.delete_memory memory_id
                    (snd (Checked.delete_memory memory_id db)))) =
     memories (snd (Checked.delete_memory memory_id db)) /\
   forall db0 n,
     (forall r, In r (memories db0) -> id r <> memory_id) ->
     fst (Checked.delete_memory memory_id
            (Checked.delete_times n memory_id db0)) = inr false /\
     memories (snd (Checked.delete_memory memory_id
                      (Checked.delete_times n memory_id db0))) =
       memories db0) /\
  (fits_int64 memory_id = false ->
   fst (Checked.delete_memory memory_id db) = inl too_large /\
   memories (snd (Checked.delete_memory memory_id db)) = memories db /\
   fst (Checked.get_memory_by_id memory_id db) = inl too_large /\
   memories (snd (Checked.get_memory_by_id memory_id db)) = memories db).
Proof.
  split.
  - intros Hfit.
    assert (Habs : forall d,
              (forall r, In r (memories d) -> id r <> memory_id) ->
              fst (Checked.delete_memory memory_id d) = inr false /\
              memories (snd (Checked.delete_memory memory_id d)) =
                memories d).
    { intros d Hd. rewrite (delete_memory_fits _ _ Hfit).
      rewrite (proj2 (find_id_None _ _) Hd). cbn [fst snd].
      split; [reflexivity | apply memories_connect]. }
    assert (Hgone : forall r,
              In r (memories (snd (Checked.delete_memory memory_id db))) ->
              id r <> memory_id).
    { rewrite (delete_memory_rows _ _ Hfit). apply find_id_None.
      apply find_id_filter. }
    split.
    { rewrite (get_memory_by_id_fits _ _ Hfit). cbn [fst].
      f_equal. apply find_id_None. exact Hgone. }
    split; [exact Hgone|].
    split; [apply Habs, Hgone|]. split; [apply Habs, Hgone|].
    intros db0 n Hd.
    assert (Hn : memories (Checked.delete_times n memory_id db0) =
                 memories db0).
    { induction n as [|n IH]; [reflexivity|].
      change (Checked.delete_times (S n) memory_id db0)
        with (snd (Checked.delete_memory memory_id
                     (Checked.delete_times n memory_id db0))).
      transitivity (memories (Checked.delete_times n memory_id db0));
        [|exact IH].
      apply Habs. rewrite IH. exact Hd. }
    destruct (Habs (Checked.delete_times n memory_id db0)) as [H1 H2];
      [rewrite Hn; exact Hd|].
    split; [exact H1 | rewrite H2; exact Hn].
  - intros Hfit. unfold Checked.delete_memory, Checked.get_memory_by_id.
    rewrite Hfit. cbn [fst snd]. rewrite memories_connect. repeat split.
Qed.

Lemma C6_delete_then_absent_checked_witness :
  fits_int64 9999 = true /\
  (forall r, In r (memories db_two) -> id r <> 9999) /\
  fst (Checked.delete_memory 9999 (Checked.delete_times 3 9999 db_two)) =
    inr false /\
  memories (snd (Checked.delete_memory 9999
                   (Checked.delete_times 3 9999 db_two))) = [row_1; row_2].
Proof.
  assert (Hd : forall r, In r (memories db_two) -> id r <> 9999)
    by (intros r [<-|[<-|[]]]; discriminate).
  split; [reflexivity|]. split; [exact Hd|].
  exact (proj2 (proj2 (proj2 (proj2 (proj1
           (C6_delete_then_absent_checked 9999 db_two) eq_refl))))
           db_two 3%nat Hd).
Defined.

(** C6 as stated fails outside the 64 bits: with the id 2^63 both
    [delete_memory] and [get_memory_by_id] raise. *)
Lemma C6_delete_overflow_counterexample :
  Checked.delete_memory (2 ^ 63) db_two =
    (inl (OverflowError "Python int too large to convert to SQLite INTEGER"),
     db_two) /\
  fst (Checked.delete_memory (2 ^ 63) db_two) <> inr false /\
  Checked.get_memory_by_id (2 ^ 63) db_two =
    (inl (OverflowError "Python int too large to convert to SQLite INTEGER"),
     db_two) /\
  fst (Checked.get_memory_by_id (2 ^ 63) db_two) <> inr None.
Proof.
  split; [reflexivity|]. split; [discriminate|].
  split; [reflexivity | discriminate].
Qed.

End CheckedClaims.

Section CheckedExtras.
Import DatabaseManager StoreFacts TableFacts UpdateFacts CheckedFacts.

(** X8. For a [memory_id] within the signed 64 bits, [delete_memory]
    returns [True] exactly when a row of the table has the id and [False]
    exactly when none has; afterwards a lookup by any other id finds what it
    found before, and the listing is the former listing without the entries
    of that id. *)
Theorem X8_delete_only_that_id (memory_id : Z) (db : t) :
  fits_int64 memory_id = true ->
  (fst (Checked.delete_memory memory_id db) = inr true <->
   exists r, In r (memories db) /\ id r = memory_id) /\
  (fst (Checked.delete_memory memory_id db) = inr false <->
   forall r, In r (memories db) -> id r <> memory_id) /\
  (forall other, other <> memory_id ->
     fst (Checked.get_memory_by_id other
            (snd (Checked.delete_memory memory_id db))) =
     fst (Checked.get_memory_by_id other db)) /\
  fst (list_memories (snd (Checked.delete_memory memory_id db))) =
    List.filter (fun p => negb (Z.eqb (fst p) memory_id))
      (fst (list_memories db)).
Proof.
  intros Hfit.
  pose proof (delete_memory_rows memory_id db Hfit) as Hrows.
  rewrite <- find_id_None, <- find_id_Some.
  rewrite (delete_memory_fits _ _ Hfit).
  split; [|split; [|split]].
  - destruct (List.find _ _) as [m|]; cbn [fst];
      split; try congruence; eauto.
    intros [m Hm]. discriminate.
  - destruct (List.find _ _) as [m|]; cbn [fst]; split; congruence.
  - intros other Hne. rewrite <- (delete_memory_fits _ _ Hfit).
    unfold Checked.get_memory_by_id.
    destruct (fits_int64 other); [|reflexivity].
    rewrite !get_memory_by_id_eq. cbn [fst]. f_equal.
    rewrite Hrows. apply find_id_sql_delete_other. exact Hne.
  - rewrite <- (delete_memory_fits _ _ Hfit).
    rewrite !list_memories_eq. cbn [fst]. rewrite Hrows. unfold sql_delete.
    clear Hrows.
    induction (memories db) as [|x rows IH]; cbn [List.filter List.map];
      [reflexivity|].
    cbn [fst]. destruct (negb (Z.eqb (id x) memory_id)); cbn [List.map];
      rewrite IH; reflexivity.
Qed.

Lemma X8_delete_only_that_id_witness :
  fits_int64 2 = true /\
  (exists r, In r (memories db_two) /\ id r = 2) /\
  fst (Checked.delete_memory 2 db_two) = inr true.
Proof.
  assert (Hex : exists r, In r (memories db_two) /\ id r = 2)
    by (exists row_2; split; [right; left; reflexivity | reflexivity]).
  split; [reflexivity|]. split; [exact Hex|].
  exact (proj2 (proj1 (X8_delete_only_that_id 2 db_two eq_refl)) Hex).
Defined.

End CheckedExtras.

Section CheckedToolClaims.
Variable int_of_str : string -> exn + Z.

(** C9, as the tool has it. With a memory_id supplied, [get_memory] never
    looks at the title: its answer and the manager it leaves are the same
    with any title as with none. When the memory_id is an integer within the
    signed 64 bits, the answer is that of the lookup by id, and "Memory not
    found." when no row of the table has the id, also when a row has the
    title; when it is an integer outside the 64 bits, the answer is "Error
    retrieving memory: Python int too large to convert to SQLite
    INTEGER". *)
Theorem C9_get_memory_id_only (memory_id title : value)
    (db : DatabaseManager.t) :
  is_None memory_id = false ->
  Checked.get_memory int_of_str memory_id title db =
    Checked.get_memory int_of_str memory_id VNone db /\
  (forall n,
     py_int int_of_str memory_id = inr n ->
     (fits_int64 n = true ->
      Checked.get_memory int_of_str memory_id title db =
        (show_memory (fst (DatabaseManager.get_memory_by_id n db)),
         DatabaseManager.connect db) /\
      ((forall r, In r (DatabaseManager.memories db) ->
                  DatabaseManager.id r <> n) ->
       Checked.get_memory int_of_str memory_id title db =
         ("Memory not found.", DatabaseManager.connect db))) /\
     (fits_int64 n = false ->
      Checked.get_memory int_of_str memory_id title db =
        ("Error retrieving memory: Python int too large to convert to SQLite INTEGER",
         DatabaseManager.connect db))).
Proof.
  intros Hid. unfold Checked.get_memory. rewrite Hid. cbn [negb].
  split; [reflexivity|]. intros n Hn. rewrite Hn. split.
  - intros Hfit.
    rewrite (CheckedFacts.get_memory_by_id_fits _ _ Hfit),
      StoreFacts.get_memory_by_id_eq. cbn [fst].
    split; [reflexivity|]. intros Habs.
    rewrite (proj2 (CheckedFacts.find_id_None _ _) Habs). reflexivity.
  - intros Hfit. unfold Checked.get_memory_by_id. rewrite Hfit. reflexivity.
Qed.

End CheckedToolClaims.

(** No record of [db_two] has the id 7, and the record with the id 2 has
    the title "ideas". *)
Lemma C9_get_memory_id_only_witness :
  is_None (VInt 7) = false /\
  py_int decimal_int_of_str (VInt 7) = inr 7 /\
  fits_int64 7 = true /\
  existsb (fun r => Z.eqb (DatabaseManager.id r) 7)
    (DatabaseManager.memories db_two) = false /\
  fst (DatabaseManager.get_memory_by_title "ideas" db_two) = Some row_2 /\
  Checked.get_memory decimal_int_of_str (VInt 7) (VStr "ideas") db_two =
    ("Memory not found.", db_two).
Proof.
  split; [reflexivity|]. split; [reflexivity|]. split; [reflexivity|].
  split; [reflexivity|]. split; [reflexivity|].
  apply (proj2 (proj1 (proj2 (C9_get_memory_id_only decimal_int_of_str
                                (VInt 7) (VStr "ideas") db_two eq_refl)
                         7 eq_refl) eq_refl)).
  intros r [<-|[<-|[]]]; discriminate.
Defined.

(** C9 as stated fails outside the 64 bits: no record has the id 2^63, a
    record has the title, and the answer is not "Memory not found.". *)
Lemma C9_get_memory_overflow_counterexample :
  existsb (fun r => Z.eqb (DatabaseManager.id r) (2 ^ 63))
    (DatabaseManager.memories db_two) = false /\
  fst (DatabaseManager.get_memory_by_title "ideas" db_two) = Some row_2 /\
  Checked.get_memory decimal_int_of_str (VInt (2 ^ 63)) (VStr "ideas") db_two =
    ("Error retrieving memory: Python int too large to convert to SQLite INTEGER",
     db_two) /\
  fst (Checked.get_memory decimal_int_of_str (VInt (2 ^ 63)) (VStr "ideas")
         db_two) <> "Memory not found.".
Proof.
  split; [reflexivity|]. split; [reflexivity|]. split; [reflexivity|].
  discriminate.
Qed.

(** [{"title": null, "content": "C"}]. *)
Lemma X14_remember_null_witness :
  ({[ "title" := VNone; "content" := VStr "C" ]} : gmap string value)
    !! "title" = Some VNone /\
  ({[ "title" := VNone; "content" := VStr "C" ]} : gmap string value)
    !! "content" = Some (VStr "C") /\
  is_int VNone = false /\ is_int (VStr "C") = false /\
  is_None VNone || is_None (VStr "C") = true /\
  handle_call_tool decimal_int_of_str "remember"
    (Some {[ "title" := VNone; "content" := VStr "C" ]})
    "2024-05-01T10:00:00" db_two =
  (Return [TextContent
     "Error storing memory: NOT NULL constraint failed: memories.title"],
   db_two).
Proof.
  assert (Ht : ({[ "title" := VNone; "content" := VStr "C" ]}
                  : gmap string value) !! "title" = Some VNone)
    by reflexivity.
  assert (Hc : ({[ "title" := VNone; "content" := VStr "C" ]}
                  : gmap string value) !! "content" = Some (VStr "C"))
    by reflexivity.
  split; [exact Ht|]. split; [exact Hc|]. split; [reflexivity|].
  split; [reflexivity|]. split; [reflexivity|].
  exact (proj1 (X14_remember_null decimal_int_of_str _ VNone (VStr "C")
                  "2024-05-01T10:00:00" db_two Ht Hc eq_refl eq_refl
                  eq_refl)).
Defined.

(** [{"memory_id": "1", "title": "shopping"}]: the id as a string. *)
Lemma X16_update_memory_then_get_memory_witness :
  ({[ "memory_id" := VStr "1"; "title" := VStr "shopping" ]}
     : gmap string value) !! "memory_id" = Some (VStr "1") /\
  py_int decimal_int_of_str (VStr "1") = inr 1 /\
  fits_int64 1 = true /\
  ({[ "memory_id" := VStr "1"; "title" := VStr "shopping" ]}
     : gmap string value) !! "title" = Some (VStr "shopping") /\
  get (Some {[ "memory_id" := VStr "1"; "title" := VStr "shopping" ]})
    "content" = VNone /\
  fst (handle_call_tool decimal_int_of_str "get_memory"
         (Some {[ "memory_id" := VInt 1 ]}) "2024-05-01T10:05:00"
         (snd (handle_call_tool decimal_int_of_str "update_memory"
                 (Some {[ "memory_id" := VStr "1";
                          "title" := VStr "shopping" ]})
                 "2024-05-01T10:00:00" db_two))) =
  Return [TextContent ("Title: shopping" ++ nl ++ nl ++ "Content: milk, eggs")].
Proof.
  assert (Hv : ({[ "memory_id" := VStr "1"; "title" := VStr "shopping" ]}
                  : gmap string value) !! "memory_id" = Some (VStr "1"))
    by reflexivity.
  assert (Ht : ({[ "memory_id" := VStr "1"; "title" := VStr "shopping" ]}
                  : gmap string value) !! "title" = Some (VStr "shopping"))
    by reflexivity.
  assert (Hc : get (Some {[ "memory_id" := VStr "1";
                            "title" := VStr "shopping" ]}) "content" = VNone)
    by reflexivity.
  split; [exact Hv|]. split; [reflexivity|]. split; [reflexivity|].
  split; [exact Ht|]. split; [exact Hc|].
  exact (proj2 (X16_update_memory_then_get_memory decimal_int_of_str _
                  (VStr "1") 1 "shopping" "2024-05-01T10:00:00"
                  "2024-05-01T10:05:00" db_two Hv eq_refl eq_refl Ht Hc)).
Defined.

Lemma X17_delete_memory_then_gone_witness :
  ({[ "memory_id" := VInt 2 ]} : gmap string value) !! "memory_id" =
    Some (VInt 2) /\
  py_int decimal_int_of_str (VInt 2) = inr 2 /\
  fits_int64 2 = true /\
  fst (handle_call_tool decimal_int_of_str "delete_memory"
         (Some {[ "memory_id" := VInt 2 ]}) "2024-05-01T10:00:00" db_two) =
  Return [TextContent "Memory 2 deleted successfully."].
Proof.
  assert (Hv : ({[ "memory_id" := VInt 2 ]} : gmap string value)
                 !! "memory_id" = Some (VInt 2)) by reflexivity.
  split; [exact Hv|]. split; [reflexivity|]. split; [reflexivity|].
  exact (proj1 (X17_delete_memory_then_gone decimal_int_of_str _ (VInt 2) 2
                  "2024-05-01T10:00:00" "2024-05-01T10:05:00" db_two
                  Hv eq_refl eq_refl)).
Defined.
